(** * pycat: NetCat File Transfer (netcat_transfer.py)

    A shallow embedding of the transfer, discovery and PIN logic of
    [NetcatTransferApp], and the properties of the specification settled
    against it.

    Conventions.
    - A Python [str] is the list of its Unicode code points ([list N]);
      [bytes] is a [list byte].
    - The object [self] is the record [App]; a method is a function from
      [App] to [App].  The text widget, the message boxes and everything
      outside the process (file system, clock, sockets, the shell and the
      [nc] binary, the random generator) live in the record too: the widget
      and boxes as traces, the outside as a value [os] of a type [World]
      whose operations are the fields of the class [Runtime].
    - The worker threads ([send_thread], [receive_thread]) are run to
      completion where the source starts them. *)

From Stdlib Require Import NArith ZArith List Strings.String Strings.Ascii Strings.Byte Lia.
From stdpp Require Import base option list gmap.

Local Open Scope N_scope.

(** ** Python strings *)

Abbreviation str := (list N).
Abbreviation bytes := (list byte).

(** A string literal of the source. *)
Definition lit (s : string) : str := N_of_ascii <$> list_ascii_of_string s.
Arguments lit s%_string.

Module Py.

(** [s.startswith(p)] *)
Fixpoint startswith (p s : str) : bool :=
  match p, s with
  | [], _ => true
  | a :: p', b :: s' => (a =? b) && startswith p' s'
  | _ :: _, [] => false
  end.

(** [s.endswith(p)] *)
Definition endswith (p s : str) : bool := startswith (rev p) (rev s).

(** [s.split(sep)] for a separator of one character. *)
Fixpoint split (sep : N) (s : str) : list str :=
  match s with
  | [] => [[]]
  | c :: s' =>
      if c =? sep then [] :: split sep s'
      else match split sep s' with
           | p :: ps => (c :: p) :: ps
           | [] => [[c]]
           end
  end.

(** [sep.join(parts)] *)
Fixpoint join (sep : str) (parts : list str) : str :=
  match parts with
  | [] => []
  | [p] => p
  | p :: ps => p ++ sep ++ join sep ps
  end.

(** [c.isspace()]: the white space of [str.strip()]. *)
Definition isspace (c : N) : bool :=
  ((0x09 <=? c) && (c <=? 0x0D)) || ((0x1C <=? c) && (c <=? 0x20))
  || (c =? 0x85) || (c =? 0xA0) || (c =? 0x1680)
  || ((0x2000 <=? c) && (c <=? 0x200A))
  || (c =? 0x2028) || (c =? 0x2029) || (c =? 0x202F) || (c =? 0x205F)
  || (c =? 0x3000).

Fixpoint lstrip (s : str) : str :=
  match s with
  | c :: s' => if isspace c then lstrip s' else s
  | [] => []
  end.

(** [s.strip()] *)
Definition strip (s : str) : str := rev (lstrip (rev (lstrip s))).

(** [l[:-1]] *)
Definition all_but_last {A} (l : list A) : list A := removelast l.

(** [string.digits] *)
Definition digits : str := lit "0123456789".

(** [population[i]] on a string; the index is in range wherever it is used. *)
Definition index (population : str) (i : N) : N :=
  nth (N.to_nat i) population 0.

(** [os.path.join(a, b)] of posixpath. *)
Definition path_join (a b : str) : str :=
  if startswith (lit "/") b then b
  else if bool_decide (a = []) || endswith (lit "/") a then a ++ b
  else a ++ lit "/" ++ b.

(** [os.path.basename(p)] of posixpath: what follows the last slash. *)
Definition basename (p : str) : str := List.last (split 0x2F p) [].

(** [os.path.isabs(p)] of posixpath. *)
Definition isabs (p : str) : bool := startswith (lit "/") p.

End Py.

(** ** UTF-8, as [str.encode('utf-8')] and [bytes.decode('utf-8')] *)

Module Utf8.

Definition byte_of (n : N) : byte := default "000"%byte (Byte.of_N n).

Definition is_surrogate (c : N) : bool := (0xD800 <=? c) && (c <=? 0xDFFF).

(** The bytes of one code point; [None] for what the strict codec refuses
    (a surrogate) and for what is no code point at all. *)
Definition encode_char (c : N) : option bytes :=
  if c <? 0x80 then Some [byte_of c]
  else if c <? 0x800 then
    Some [byte_of (0xC0 + c / 64); byte_of (0x80 + c mod 64)]
  else if c <? 0x10000 then
    if is_surrogate c then None
    else Some [byte_of (0xE0 + c / 4096); byte_of (0x80 + (c / 64) mod 64);
               byte_of (0x80 + c mod 64)]
  else if c <? 0x110000 then
    Some [byte_of (0xF0 + c / 262144); byte_of (0x80 + (c / 4096) mod 64);
          byte_of (0x80 + (c / 64) mod 64); byte_of (0x80 + c mod 64)]
  else None.

Fixpoint encode (s : str) : option bytes :=
  match s with
  | [] => Some []
  | c :: s' =>
      match encode_char c, encode s' with
      | Some bs, Some r => Some (bs ++ r)
      | _, _ => None
      end
  end.

Definition between (lo hi : N) (b : byte) : bool :=
  (lo <=? Byte.to_N b) && (Byte.to_N b <=? hi).

Definition cont (b : byte) : bool := between 0x80 0xBF b.

(** The payload bits of a continuation byte. *)
Definition low6 (b : byte) : N := Byte.to_N b mod 64.

(** The range of the second byte after a three-byte lead [n0]: no overlong
    form after E0, no surrogate after ED. *)
Definition second3 (n0 : N) (b : byte) : bool :=
  if n0 =? 0xE0 then between 0xA0 0xBF b
  else if n0 =? 0xED then between 0x80 0x9F b
  else cont b.

(** The range of the second byte after a four-byte lead [n0]: no overlong
    form after F0, nothing above U+10FFFF after F4. *)
Definition second4 (n0 : N) (b : byte) : bool :=
  if n0 =? 0xF0 then between 0x90 0xBF b
  else if n0 =? 0xF4 then between 0x80 0x8F b
  else cont b.

(** The strict decoder: [None] where Python raises [UnicodeDecodeError]. *)
Fixpoint decode (bs : bytes) : option str :=
  match bs with
  | [] => Some []
  | b0 :: r0 =>
      let n0 := Byte.to_N b0 in
      if n0 <? 0x80 then cons n0 <$> decode r0
      else if (0xC2 <=? n0) && (n0 <=? 0xDF) then
        match r0 with
        | b1 :: r1 =>
            if cont b1
            then cons ((n0 - 0xC0) * 64 + low6 b1) <$> decode r1
            else None
        | _ => None
        end
      else if (0xE0 <=? n0) && (n0 <=? 0xEF) then
        match r0 with
        | b1 :: b2 :: r2 =>
            if second3 n0 b1 && cont b2
            then cons ((n0 - 0xE0) * 4096 + low6 b1 * 64 + low6 b2)
                   <$> decode r2
            else None
        | _ => None
        end
      else if (0xF0 <=? n0) && (n0 <=? 0xF4) then
        match r0 with
        | b1 :: b2 :: b3 :: r3 =>
            if second4 n0 b1 && cont b2 && cont b3
            then cons ((n0 - 0xF0) * 262144 + low6 b1 * 4096
                       + low6 b2 * 64 + low6 b3) <$> decode r3
            else None
        | _ => None
        end
      else None
  end.

End Utf8.

(** ** Exceptions and results *)

Inductive exn :=
| UnicodeDecodeError (object : bytes)
| UnicodeEncodeError (object : str)
| TimeoutExpired (cmd : str)          (* subprocess.TimeoutExpired *)
| SocketTimeout                       (* socket.timeout *)
| OSError (strerror : str).           (* any other failure of the system *)

Inductive result (A : Type) :=
| Ok (a : A)
| Raise (e : exn).
Arguments Ok {A} a.
Arguments Raise {A} e.

(** [data.decode('utf-8')] *)
Definition bytes_decode (data : bytes) : result str :=
  match Utf8.decode data with
  | Some s => Ok s
  | None => Raise (UnicodeDecodeError data)
  end.

(** [message.encode('utf-8')] *)
Definition str_encode (s : str) : result bytes :=
  match Utf8.encode s with
  | Some b => Ok b
  | None => Raise (UnicodeEncodeError s)
  end.

(** ** The world outside the process *)

(** [datetime.now()] *)
Record datetime := {
  year : N; month : N; day : N; hour : N; minute : N; second : N
}.

(** A [subprocess.CompletedProcess] of a run with [capture_output=True] and
    [text=True]. *)
Record CompletedProcess := {
  returncode : Z; stdout : str; stderr : str
}.

(** What the program asks of its runtime.  [subprocess_run cmd] is
    [subprocess.run(cmd, shell=True, capture_output=True, text=True,
    timeout=300)]; [socket_broadcast] is the creation of the datagram socket
    with [SO_BROADCAST] set; [random_u53] draws the 53-bit number [u] of
    which [random()] is the fraction [u / 2^53]; [str_of_exn] is
    [str(e)]. *)
Class Runtime (World : Type) := {
  str_of_exn : exn -> str;
  platform_system : World -> str;
  datetime_now : World -> datetime;
  os_path_exists : str -> World -> bool;
  os_makedirs : str -> World -> option exn * World;
  subprocess_run : str -> World -> result CompletedProcess * World;
  socket_broadcast : World -> option exn * World;
  socket_sendto : bytes -> str * N -> World -> option exn * World;
  socket_close : World -> World;
  random_u53 : World -> N * World
}.

(** ** Formatting *)

(** A number in [width] decimal digits, zero filled. *)
Fixpoint zpad (width : nat) (n : N) : str :=
  match width with
  | O => []
  | S w => zpad w (n / 10) ++ [0x30 + n mod 10]
  end.

(** [t.strftime("%Y%m%d_%H%M%S")]; [%Y] is written in four digits, as every
    platform does from the year 1000 on. *)
Definition strftime (t : datetime) : str :=
  zpad 4 (year t) ++ zpad 2 (month t) ++ zpad 2 (day t) ++ lit "_"
  ++ zpad 2 (hour t) ++ zpad 2 (minute t) ++ zpad 2 (second t).

(** The dates [datetime] can hold, from the year 1000 on. *)
Definition valid_datetime (t : datetime) : Prop :=
  1000 <= year t <= 9999 /\ 1 <= month t <= 12 /\ 1 <= day t <= 31
  /\ hour t < 24 /\ minute t < 60 /\ second t < 60.

(** The line feed of the f-strings. *)
Definition nl : str := [0x0A].

(** ** Floating point, as far as [random() * n] needs it

    The doubles that matter here are those of the form [m / 2^53] with [m]
    a natural number; [double_of_N m] is the double nearest to the natural
    number [m], itself a natural number, for [m] below [2^1024].  A double
    holds 53 significant bits: of a number of more bits ([N.size]) the bits
    below are rounded away, to the nearest, and to the even one of two that
    are as near.  The division by [2^53] is exact in the range at hand. *)

(** [m / 2^s], rounded to the nearest integer, ties to even. *)
Definition round_half_even (m s : N) : N :=
  let q := m / 2 ^ s in
  match 2 * (m mod 2 ^ s) ?= 2 ^ s with
  | Lt => q
  | Gt => q + 1
  | Eq => if N.even q then q else q + 1
  end.

Definition double_of_N (m : N) : N :=
  let s := N.size m - 53 in round_half_even m s * 2 ^ s.

(** The transfer port and the discovery port, and [f"{port}"]. *)
Definition port : N := 12345.
Definition discovery_port : N := 12346.
Definition port_str : str := lit "12345".

(** ** The application object *)

Inductive dialog :=
| showerror (title message : str)
| showinfo (title message : str).

Record App (World : Type) := {
  local_ip : str;
  pin_code : str;
  pin_label : str;
  discovery_running : bool;
  discovered_peers : gmap str str;
  file_path_var : str;
  save_path_var : str;
  receiver_ip_entry : str;
  receiver_pin_entry : str;
  expected_pin_entry : str;
  log_text : list str;
  dialogs : list dialog;
  os : World
}.
Arguments local_ip {World} _.
Arguments pin_code {World} _.
Arguments pin_label {World} _.
Arguments discovery_running {World} _.
Arguments discovered_peers {World} _.
Arguments file_path_var {World} _.
Arguments save_path_var {World} _.
Arguments receiver_ip_entry {World} _.
Arguments receiver_pin_entry {World} _.
Arguments expected_pin_entry {World} _.
Arguments log_text {World} _.
Arguments dialogs {World} _.
Arguments os {World} _.

Section Application.
Context {World : Type} `{RT : Runtime World}.

Abbreviation app := (App World).

(** *** Assignments to the fields *)

Definition set_log_text (l : list str) (self : app) : app :=
  {| local_ip := local_ip self; pin_code := pin_code self;
     pin_label := pin_label self;
     discovery_running := discovery_running self;
     discovered_peers := discovered_peers self;
     file_path_var := file_path_var self;
     save_path_var := save_path_var self;
     receiver_ip_entry := receiver_ip_entry self;
     receiver_pin_entry := receiver_pin_entry self;
     expected_pin_entry := expected_pin_entry self;
     log_text := l; dialogs := dialogs self; os := os self |}.

Definition set_dialogs (d : list dialog) (self : app) : app :=
  {| local_ip := local_ip self; pin_code := pin_code self;
     pin_label := pin_label self;
     discovery_running := discovery_running self;
     discovered_peers := discovered_peers self;
     file_path_var := file_path_var self;
     save_path_var := save_path_var self;
     receiver_ip_entry := receiver_ip_entry self;
     receiver_pin_entry := receiver_pin_entry self;
     expected_pin_entry := expected_pin_entry self;
     log_text := log_text self; dialogs := d; os := os self |}.

Definition set_os (w : World) (self : app) : app :=
  {| local_ip := local_ip self; pin_code := pin_code self;
     pin_label := pin_label self;
     discovery_running := discovery_running self;
     discovered_peers := discovered_peers self;
     file_path_var := file_path_var self;
     save_path_var := save_path_var self;
     receiver_ip_entry := receiver_ip_entry self;
     receiver_pin_entry := receiver_pin_entry self;
     expected_pin_entry := expected_pin_entry self;
     log_text := log_text self; dialogs := dialogs self; os := w |}.

Definition set_discovered_peers (m : gmap str str) (self : app) : app :=
  {| local_ip := local_ip self; pin_code := pin_code self;
     pin_label := pin_label self;
     discovery_running := discovery_running self;
     discovered_peers := m;
     file_path_var := file_path_var self;
     save_path_var := save_path_var self;
     receiver_ip_entry := receiver_ip_entry self;
     receiver_pin_entry := receiver_pin_entry self;
     expected_pin_entry := expected_pin_entry self;
     log_text := log_text self; dialogs := dialogs self; os := os self |}.

Definition set_pin (code label : str) (self : app) : app :=
  {| local_ip := local_ip self; pin_code := code; pin_label := label;
     discovery_running := discovery_running self;
     discovered_peers := discovered_peers self;
     file_path_var := file_path_var self;
     save_path_var := save_path_var self;
     receiver_ip_entry := receiver_ip_entry self;
     receiver_pin_entry := receiver_pin_entry self;
     expected_pin_entry := expected_pin_entry self;
     log_text := log_text self; dialogs := dialogs self; os := os self |}.

Definition set_vars (file_path save_path : str) (self : app) : app :=
  {| local_ip := local_ip self; pin_code := pin_code self;
     pin_label := pin_label self;
     discovery_running := discovery_running self;
     discovered_peers := discovered_peers self;
     file_path_var := file_path; save_path_var := save_path;
     receiver_ip_entry := receiver_ip_entry self;
     receiver_pin_entry := receiver_pin_entry self;
     expected_pin_entry := expected_pin_entry self;
     log_text := log_text self; dialogs := dialogs self; os := os self |}.

Definition set_entries (ip pin expected : str) (self : app) : app :=
  {| local_ip := local_ip self; pin_code := pin_code self;
     pin_label := pin_label self;
     discovery_running := discovery_running self;
     discovered_peers := discovered_peers self;
     file_path_var := file_path_var self;
     save_path_var := save_path_var self;
     receiver_ip_entry := ip; receiver_pin_entry := pin;
     expected_pin_entry := expected;
     log_text := log_text self; dialogs := dialogs self; os := os self |}.

(** *** [log], and the message boxes *)

(** [self.log(message)]: the text widget receives [f"{message}\n"]. *)
Definition log (message : str) (self : app) : app :=
  set_log_text (log_text self ++ [message ++ nl]) self.

Definition messagebox (d : dialog) (self : app) : app :=
  set_dialogs (dialogs self ++ [d]) self.

(** *** [generate_pin] and [refresh_pin] *)

(** [floor(random() * n)], the index [random.choices] draws into a
    population of [n], where [n] has become a float ([n += 0.0]): [random()]
    is the double [u / 2^53], the product is the double nearest to
    [u * n / 2^53], and [floor] takes its integral part. *)
Definition random_index (n : N) (w : World) : N * World :=
  let '(u, w') := random_u53 w in
  (double_of_N ((u mod 2 ^ 53) * double_of_N n) / 2 ^ 53, w').

(** [random.choices(population, k=k)]: [k] one-character strings. *)
Fixpoint random_choices (population : str) (k : nat) (w : World)
  : list str * World :=
  match k with
  | O => ([], w)
  | S k' =>
      let '(i, w1) := random_index (N.of_nat (length population)) w in
      let '(rest, w2) := random_choices population k' w1 in
      ([Py.index population i] :: rest, w2)
  end.

Definition generate_pin (w : World) : str * World :=
  let '(cs, w') := random_choices Py.digits 6 w in (Py.join [] cs, w').

Definition refresh_pin (self : app) : app :=
  let '(pin, w) := generate_pin (os self) in
  let self := set_pin pin pin (set_os w self) in
  log (lit "New PIN code generated: " ++ pin) self.

(** *** [__init__]

    [ip] is what [get_local_ip] returned and [home] what
    [os.path.expanduser("~")] did; [setup_ui] fills the widgets, the entry
    of the receiver's address with [192.168.], and writes the first four
    lines of the log. *)
Definition init (ip home : str) (w : World) : app :=
  let '(pin, w) := generate_pin w in
  let self :=
    {| local_ip := ip; pin_code := pin; pin_label := pin;
       discovery_running := true; discovered_peers := ∅;
       file_path_var := lit "No file selected";
       save_path_var := Py.path_join home (lit "Downloads");
       receiver_ip_entry := lit "192.168."; receiver_pin_entry := [];
       expected_pin_entry := [];
       log_text := []; dialogs := []; os := w |} in
  let self := log (lit "Application started") self in
  let self := log (lit "Local IP: " ++ local_ip self) self in
  let self := log (lit "PIN Code: " ++ pin_code self) self in
  log (lit "Ready to send or receive files") self.

(** *** [select_file] and [select_save_folder]; the dialog's answer is the
    argument, empty when the user cancels. *)
Definition select_file (filename : str) (self : app) : app :=
  if bool_decide (filename = []) then self
  else log (lit "File selected: " ++ Py.basename filename)
         (set_vars filename (save_path_var self) self).

Definition select_save_folder (folder : str) (self : app) : app :=
  if bool_decide (folder = []) then self
  else log (lit "Save location: " ++ folder)
         (set_vars (file_path_var self) folder self).

(** *** [send_file] *)

Definition is_darwin (w : World) : bool :=
  bool_decide (platform_system w = lit "Darwin").

(** The command line of the sender. *)
Definition send_cmd (w : World) (receiver_ip file_path : str) : str :=
  if is_darwin w
  then lit "nc -N " ++ receiver_ip ++ lit " " ++ port_str
       ++ lit " < '" ++ file_path ++ lit "'"
  else lit "nc -w 3 " ++ receiver_ip ++ lit " " ++ port_str
       ++ lit " < '" ++ file_path ++ lit "'".

(** [result.stderr or "Unknown error"] *)
Definition error_msg_of (result : CompletedProcess) : str :=
  if bool_decide (stderr result = []) then lit "Unknown error"
  else stderr result.

Definition send_thread (file_path receiver_ip : str) (self : app) : app :=
  let self := log (lit "Sending file to " ++ receiver_ip ++ lit "...") self in
  let self := log (lit "File: " ++ Py.basename file_path) self in
  let cmd := send_cmd (os self) receiver_ip file_path in
  let '(r, w) := subprocess_run cmd (os self) in
  let self := set_os w self in
  match r with
  | Ok result =>
      if (returncode result =? 0)%Z then
        messagebox (showinfo (lit "Success") (lit "File sent successfully!"))
          (log (lit "File sent successfully!") self)
      else
        let error_msg := error_msg_of result in
        messagebox
          (showerror (lit "Error")
             (lit "Failed to send file:" ++ nl ++ error_msg))
          (log (lit "Error sending file: " ++ error_msg) self)
  | Raise (TimeoutExpired _) =>
      messagebox (showerror (lit "Error") (lit "Transfer timed out"))
        (log (lit "Error: Transfer timed out") self)
  | Raise e =>
      messagebox
        (showerror (lit "Error")
           (lit "Failed to send file:" ++ nl ++ str_of_exn e))
        (log (lit "Error: " ++ str_of_exn e) self)
  end.

Definition send_file (self : app) : app :=
  let file_path := file_path_var self in
  if bool_decide (file_path = lit "No file selected")
     || negb (os_path_exists file_path (os self))
  then messagebox
         (showerror (lit "Error") (lit "Please select a valid file to send"))
         self
  else
    let receiver_ip := Py.strip (receiver_ip_entry self) in
    if bool_decide (receiver_ip = [])
    then messagebox
           (showerror (lit "Error") (lit "Please enter receiver IP address"))
           self
    else
      let receiver_pin := Py.strip (receiver_pin_entry self) in
      if bool_decide (receiver_pin = [])
      then messagebox
             (showerror (lit "Error") (lit "Please enter receiver PIN code"))
             self
      else send_thread file_path receiver_ip self.

(** *** [start_receiving] *)

(** The name of the file to save, and its path. *)
Definition received_filename (t : datetime) : str :=
  lit "received_file_" ++ strftime t.

Definition save_path_of (save_folder : str) (t : datetime) : str :=
  Py.path_join save_folder (received_filename t).

(** The command line of the receiver. *)
Definition receive_cmd (w : World) (save_path : str) : str :=
  if is_darwin w
  then lit "nc -l " ++ port_str ++ lit " > '" ++ save_path ++ lit "'"
  else lit "nc -l -p " ++ port_str ++ lit " > '" ++ save_path ++ lit "'".

Definition receive_thread (expected_pin save_folder : str) (self : app)
  : app :=
  let self := log (lit "Listening on port " ++ port_str ++ lit "...") self in
  let self := log (lit "Expected PIN: " ++ expected_pin) self in
  let self := log (lit "Waiting for file transfer...") self in
  let timestamp := datetime_now (os self) in
  let save_path := save_path_of save_folder timestamp in
  let cmd := receive_cmd (os self) save_path in
  let '(r, w) := subprocess_run cmd (os self) in
  let self := set_os w self in
  match r with
  | Ok result =>
      if (returncode result =? 0)%Z then
        messagebox
          (showinfo (lit "Success")
             (lit "File received!" ++ nl ++ lit "Saved to: " ++ save_path))
          (log (lit "File received and saved to: " ++ save_path) self)
      else
        let error_msg := error_msg_of result in
        messagebox
          (showerror (lit "Error")
             (lit "Failed to receive file:" ++ nl ++ error_msg))
          (log (lit "Error receiving file: " ++ error_msg) self)
  | Raise (TimeoutExpired _) =>
      messagebox (showerror (lit "Error") (lit "Transfer timed out"))
        (log (lit "Error: Transfer timed out") self)
  | Raise e =>
      messagebox
        (showerror (lit "Error")
           (lit "Failed to receive file:" ++ nl ++ str_of_exn e))
        (log (lit "Error: " ++ str_of_exn e) self)
  end.

Definition start_receiving (self : app) : app :=
  let expected_pin := Py.strip (expected_pin_entry self) in
  if bool_decide (expected_pin = [])
  then messagebox
         (showerror (lit "Error") (lit "Please enter expected PIN code"))
         self
  else
    let save_folder := save_path_var self in
    if os_path_exists save_folder (os self)
    then receive_thread expected_pin save_folder self
    else
      let '(r, w) := os_makedirs save_folder (os self) in
      let self := set_os w self in
      match r with
      | Some e =>
          messagebox
            (showerror (lit "Error")
               (lit "Cannot create save folder:" ++ nl ++ str_of_exn e))
            self
      | None => receive_thread expected_pin save_folder self
      end.

(** *** [start_discovery_listener] *)

(** What one call of [sock.recvfrom(1024)] brings. *)
Inductive recv_event :=
| Datagram (payload : bytes)
| RecvRaises (e : exn).

(** The buffer holds 1024 bytes; what exceeds it is discarded. *)
Definition recvfrom (bufsize : nat) (payload : bytes) : bytes :=
  take bufsize payload.

(** The handling of the bytes received, inside the inner [try]. *)
Definition handle_discovery (data : bytes) (self : app) : result app :=
  match bytes_decode data with
  | Raise e => Raise e
  | Ok message =>
      if Py.startswith (lit "DISCOVERY:") message then
        let parts := Py.split 0x3A message in
        if (3 <=? length parts)%nat then
          let peer_ip := nth 1 parts [] in
          let peer_pin := nth 2 parts [] in
          let self :=
            set_discovered_peers
              (<[peer_ip := peer_pin]> (discovered_peers self)) self in
          Ok (log (lit "Discovered peer: " ++ peer_ip ++ lit " (PIN: "
                   ++ peer_pin ++ lit ")") self)
        else Ok self
      else Ok self
  end.

(** One turn of the [while] loop, with its two handlers. *)
Definition discovery_iteration (ev : recv_event) (self : app) : app :=
  let r :=
    match ev with
    | Datagram payload => handle_discovery (recvfrom 1024 payload) self
    | RecvRaises e => Raise e
    end in
  match r with
  | Ok self' => self'
  | Raise SocketTimeout => self
  | Raise e =>
      if discovery_running self
      then log (lit "Discovery error: " ++ str_of_exn e) self
      else self
  end.

(** The loop over what the socket brings, while [discovery_running]. *)
Fixpoint discovery_loop (events : list recv_event) (self : app) : app :=
  match events with
  | [] => self
  | ev :: rest =>
      if discovery_running self
      then discovery_loop rest (discovery_iteration ev self)
      else self
  end.

(** The whole method; [bind] is the exception of the socket's creation and
    binding, if any. *)
Definition start_discovery_listener (bind : option exn)
  (events : list recv_event) (self : app) : app :=
  match bind with
  | Some e => log (lit "Failed to start discovery: " ++ str_of_exn e) self
  | None => discovery_loop events self
  end.

(** What the listener does with a well-formed message: the entry of the
    mapping, and the line of the log. *)
Definition record_peer (ip pin : str) (self : app) : app :=
  log (lit "Discovered peer: " ++ ip ++ lit " (PIN: " ++ pin ++ lit ")")
    (set_discovered_peers (<[ip := pin]> (discovered_peers self)) self).

(** *** [broadcast_discovery] *)

Definition discovery_message (ip pin : str) : str :=
  lit "DISCOVERY:" ++ ip ++ lit ":" ++ pin.

Definition broadcast_ip_of (ip : str) : str :=
  let ip_parts := Py.split 0x2E ip in
  Py.join (lit ".") (Py.all_but_last ip_parts) ++ lit ".255".

Definition broadcast_failed (e : exn) (self : app) : app :=
  log (lit "Discovery broadcast failed: " ++ str_of_exn e) self.

Definition broadcast_discovery (self : app) : app :=
  let '(r0, w0) := socket_broadcast (os self) in
  let self := set_os w0 self in
  match r0 with
  | Some e => broadcast_failed e self
  | None =>
      let message := discovery_message (local_ip self) (pin_code self) in
      let broadcast_ip := broadcast_ip_of (local_ip self) in
      match str_encode message with
      | Raise e => broadcast_failed e self
      | Ok payload =>
          let '(r1, w1) :=
            socket_sendto payload (broadcast_ip, discovery_port) (os self) in
          let self := set_os w1 self in
          match r1 with
          | Some e => broadcast_failed e self
          | None =>
              let self := set_os (socket_close (os self)) self in
              log (lit "Discovery broadcast sent (IP: " ++ local_ip self
                   ++ lit ", PIN: " ++ pin_code self ++ lit ")") self
          end
      end
  end.

(** *** What the user and the network can do to the application *)

Inductive action :=
| TypeReceiverIp (s : str)
| TypeReceiverPin (s : str)
| TypeExpectedPin (s : str)
| ChooseFile (filename : str)
| ChooseSaveFolder (folder : str)
| ClickNewPin
| ClickBroadcast
| ClickSendFile
| ClickStartListening
| Discovery (ev : recv_event).

Definition perform (a : action) (self : app) : app :=
  match a with
  | TypeReceiverIp s =>
      set_entries s (receiver_pin_entry self) (expected_pin_entry self) self
  | TypeReceiverPin s =>
      set_entries (receiver_ip_entry self) s (expected_pin_entry self) self
  | TypeExpectedPin s =>
      set_entries (receiver_ip_entry self) (receiver_pin_entry self) s self
  | ChooseFile f => select_file f self
  | ChooseSaveFolder f => select_save_folder f self
  | ClickNewPin => refresh_pin self
  | ClickBroadcast => broadcast_discovery self
  | ClickSendFile => send_file self
  | ClickStartListening => start_receiving self
  | Discovery ev =>
      if discovery_running self then discovery_iteration ev self else self
  end.

(** The states the application can be in: after [__init__], and after any
    action from such a state. *)
Inductive reachable : app -> Prop :=
| reach_init ip home w : reachable (init ip home w)
| reach_step a self : reachable self -> reachable (perform a self).

End Application.

(** ** The shapes of the data

    An address as [get_local_ip] finds it, and a PIN as the specification
    describes it. *)

Definition is_digit (c : N) : bool := (0x30 <=? c) && (c <=? 0x39).

(** The number a string of digits writes. *)
Definition number (s : str) : N :=
  fold_left (λ acc c, 10 * acc + (c - 0x30)) s 0.

Definition is_octet (s : str) : bool :=
  negb (bool_decide (s = [])) && (length s <=? 3)%nat && forallb is_digit s
  && (number s <=? 255).

(** A dotted address: four numbers up to 255. *)
Definition is_ipv4 (s : str) : bool :=
  let parts := Py.split 0x2E s in
  (length parts =? 4)%nat && forallb is_octet parts.

(** Six decimal digits. *)
Definition is_pin (s : str) : bool :=
  (length s =? 6)%nat && forallb is_digit s.

(** Text of the ASCII range. *)
Definition ascii_text (s : str) : Prop := Forall (λ c, c < 0x80) s.

(** The colons of a message: one less than its fields. *)
Definition colons (message : str) : nat :=
  length (filter (λ c, c = 0x3A) message).

(** ** A model of the runtime: a POSIX host

    The source leaves the transfer to [sh] and [nc], the discovery to the
    datagram sockets of the system, the PIN to [random].  This module gives
    the class [Runtime] one instance, on which scenarios can be run.  It is
    a model of a host on which [nc] is installed and takes the flags the
    source gives it there, and it says what it covers:
    - the file system knows the canonical paths: absolute, of printable
      ASCII, without an empty component, [.] or [..], within the limits of
      length; a file lies in a directory, a directory or a file can be
      [locked] against writing, and [os.makedirs] fails below a regular
      file and in a locked directory;
    - [sh] splits the command line into words, of plain characters and of
      stretches between single quotes, and the operators [<] and [>]; a
      command line that leaves a quote open is a syntax error (status 2); a
      redirection that cannot be opened ends the command before [nc] runs
      (status 2);
    - [nc -l] writes what the accepted connection carries to its standard
      output: with a peer that closes the connection in time it leaves with
      status 0; with a peer that holds the connection, or with nobody
      connecting, the run ends in [TimeoutExpired] after the 300 seconds,
      and the file of the redirection holds what has come by then;
    - [nc host port] sends its standard input over one connection and
      leaves with status 0, the connection closed; it leaves with status 1
      when the host does not accept, and the run ends in [TimeoutExpired]
      when the host stops taking the data;
    - what the host answers for every other path and every other command
      line is not known to the model: it is the field [beyond] of the
      world, and the model follows no effect of such a command;
    - [sendto] hands one datagram to the network, and fails on a
      destination that is no dotted address;
    - [random()] takes the next number of a tape. *)

Module Posix.

(** What the peer that connects to the listening port does within the 300
    seconds the command has. *)
Inductive arrival :=
| Closes (stream : bytes)      (* sends [stream] and closes the connection *)
| Stalls (so_far : bytes).     (* has sent [so_far] and holds the connection *)

(** The bytes that have come by the end of the command. *)
Definition received (a : arrival) : bytes :=
  match a with
  | Closes stream => stream
  | Stalls so_far => so_far
  end.

(** A connection made: to whom, what it carried, and whether the end of the
    sender was closed when the command ended. *)
Record connection := {
  peer : str; peer_port : N; carried : bytes; closed : bool
}.

(** The answers of the host where the model does not know them. *)
Record outside := {
  exists_of : str -> bool;
  makedirs_of : str -> option exn;
  run_of : str -> result CompletedProcess
}.

Record world := {
  platform : str;
  clock : datetime;
  files : gmap str bytes;              (* the files that can be read *)
  dirs : gset str;                     (* the directories *)
  locked : gset str;                   (* what cannot be written *)
  inbound : option arrival;            (* who connects to the port of [nc -l] *)
  accepting : list str;                (* the hosts that accept on the port *)
  stalling : gmap str nat;             (* those that stop after so many bytes *)
  tcp_out : list connection;           (* the connections made *)
  udp_out : list (bytes * (str * N));  (* the datagrams sent *)
  broadcast_permitted : bool;
  entropy : list N;
  beyond : outside
}.

Definition set_files (f : gmap str bytes) (i : option arrival) (w : world)
  : world :=
  {| platform := platform w; clock := clock w; files := f; dirs := dirs w;
     locked := locked w; inbound := i; accepting := accepting w;
     stalling := stalling w; tcp_out := tcp_out w; udp_out := udp_out w;
     broadcast_permitted := broadcast_permitted w; entropy := entropy w;
     beyond := beyond w |}.

Definition set_dirs (d : gset str) (w : world) : world :=
  {| platform := platform w; clock := clock w; files := files w; dirs := d;
     locked := locked w; inbound := inbound w; accepting := accepting w;
     stalling := stalling w; tcp_out := tcp_out w; udp_out := udp_out w;
     broadcast_permitted := broadcast_permitted w; entropy := entropy w;
     beyond := beyond w |}.

Definition set_out (t : list connection)
  (u : list (bytes * (str * N))) (w : world) : world :=
  {| platform := platform w; clock := clock w; files := files w;
     dirs := dirs w; locked := locked w; inbound := inbound w;
     accepting := accepting w; stalling := stalling w;
     tcp_out := t; udp_out := u;
     broadcast_permitted := broadcast_permitted w; entropy := entropy w;
     beyond := beyond w |}.

Definition set_entropy (e : list N) (w : world) : world :=
  {| platform := platform w; clock := clock w; files := files w;
     dirs := dirs w; locked := locked w; inbound := inbound w;
     accepting := accepting w; stalling := stalling w;
     tcp_out := tcp_out w; udp_out := udp_out w;
     broadcast_permitted := broadcast_permitted w; entropy := e;
     beyond := beyond w |}.

(** Time passes, and a peer connects: what happens between two operations. *)
Definition at_time (t : datetime) (w : world) : world :=
  {| platform := platform w; clock := t; files := files w; dirs := dirs w;
     locked := locked w; inbound := inbound w; accepting := accepting w;
     stalling := stalling w; tcp_out := tcp_out w; udp_out := udp_out w;
     broadcast_permitted := broadcast_permitted w; entropy := entropy w;
     beyond := beyond w |}.

Definition arrive (bs : bytes) (w : world) : world :=
  set_files (files w) (Some (Closes bs)) w.

Definition stall (bs : bytes) (w : world) : world :=
  set_files (files w) (Some (Stalls bs)) w.

(** *** The file system *)

Definition printable (c : N) : bool := (0x20 <=? c) && (c <=? 0x7E).

(** A component of a canonical path. *)
Definition component (c : str) : bool :=
  negb (bool_decide (c = [])) && negb (bool_decide (c = lit "."))
  && negb (bool_decide (c = lit "..")) && (length c <=? 255)%nat
  && forallb printable c.

Definition canonical (p : str) : bool :=
  (length p <=? 1023)%nat
  && match Py.split 0x2F p with
     | [] :: c :: cs => forallb component (c :: cs)
     | _ => false
     end.

(** The directory a canonical path lies in; the root is the empty path. *)
Definition parent (p : str) : str :=
  Py.join (lit "/") (Py.all_but_last (Py.split 0x2F p)).

(** The directories above a canonical path, from the top, and the path. *)
Definition prefixes (p : str) : list str :=
  let parts := Py.split 0x2F p in
  (λ k, Py.join (lit "/") (take k parts)) <$> seq 2 (length parts - 1).

Definition is_file (p : str) (w : world) : bool :=
  bool_decide (is_Some (files w !! p)).

Definition is_dir (p : str) (w : world) : bool :=
  bool_decide (p = []) || bool_decide (p ∈ dirs w).

Definition exists_ (p : str) (w : world) : bool :=
  if canonical p then is_file p w || bool_decide (p ∈ dirs w)
  else exists_of (beyond w) p.

(** [os.makedirs(p, exist_ok=True)] *)
Definition makedirs (p : str) (w : world) : option exn * world :=
  if canonical p then
    if is_file p w
    then (Some (OSError (lit "[Errno 17] File exists")), w)
    else if existsb (λ q, is_file q w) (prefixes p)
    then (Some (OSError (lit "[Errno 20] Not a directory")), w)
    else if existsb
              (λ q, negb (bool_decide (q ∈ dirs w))
                    && bool_decide (parent q ∈ locked w)) (prefixes p)
    then (Some (OSError (lit "[Errno 13] Permission denied")), w)
    else (None, set_dirs (list_to_set (prefixes p) ∪ dirs w) w)
  else (makedirs_of (beyond w) p, w).

(** Whether the redirection [> p] can open [p]: in a directory that is
    there, a file that can be rewritten or a new file that can be
    created. *)
Definition can_write (p : str) (w : world) : bool :=
  is_dir (parent p) w && negb (bool_decide (p ∈ dirs w))
  && negb (bool_decide ((if is_file p w then p else parent p) ∈ locked w)).

(** *** The shell *)

Inductive token :=
| Word (word : str)
| Less
| Greater.

Inductive lexed :=
| Tokens (ts : list token)
| Unterminated                 (* a quote is left open *)
| Unsupported.                 (* a character the model does not interpret *)

Definition plain_char (c : N) : bool :=
  ((0x30 <=? c) && (c <=? 0x39)) || ((0x41 <=? c) && (c <=? 0x5A))
  || ((0x61 <=? c) && (c <=? 0x7A)) || (c =? 0x2E) || (c =? 0x2D)
  || (c =? 0x5F) || (c =? 0x2F) || (c =? 0x3A).

(** The word under way, if any, as a token. *)
Definition flush (cur : option str) : list token :=
  match cur with
  | Some word => [Word word]
  | None => []
  end.

Definition push (c : N) (cur : option str) : option str :=
  Some (default [] cur ++ [c]).

(** The words of a command line: [done] are the tokens before, [cur] the
    word under way, [quoted] whether a single quote is open. *)
Fixpoint lex (s : str) (done : list token) (cur : option str)
  (quoted : bool) : lexed :=
  match s with
  | [] => if quoted then Unterminated else Tokens (done ++ flush cur)
  | c :: s' =>
      if quoted then
        if c =? 0x27 then lex s' done cur false
        else if printable c then lex s' done (push c cur) true
        else Unsupported
      else if c =? 0x27 then lex s' done (Some (default [] cur)) true
      else if c =? 0x20 then lex s' (done ++ flush cur) None false
      else if (c =? 0x3C) || (c =? 0x3E) then
        match cur with
        | None =>
            lex s' (done ++ [if c =? 0x3C then Less else Greater]) None false
        | Some _ => Unsupported
        end
      else if plain_char c then lex s' done (push c cur) false
      else Unsupported
  end.

(** A host name or an address, as [nc] takes it. *)
Definition host_word (h : str) : bool :=
  negb (bool_decide (h = [])) && negb (Py.startswith (lit "-") h)
  && (length h <=? 253)%nat && forallb plain_char h
  && negb (bool_decide (0x2F ∈ h)).

Inductive request :=
| Listen (path : str)
| Send (host path : str).

(** The two command lines of the source, in the form of the platform. *)
Definition interpret (darwin : bool) (ts : list token) : option request :=
  match ts with
  | [Word a; Word b; Word c; Word d; Greater; Word path] =>
      if negb darwin
         && bool_decide ([a; b; c; d]
                         = [lit "nc"; lit "-l"; lit "-p"; port_str])
      then Some (Listen path) else None
  | [Word a; Word b; Word c; Greater; Word path] =>
      if darwin && bool_decide ([a; b; c] = [lit "nc"; lit "-l"; port_str])
      then Some (Listen path) else None
  | [Word a; Word b; Word c; Word host; Word d; Less; Word path] =>
      if negb darwin
         && bool_decide ([a; b; c; d]
                         = [lit "nc"; lit "-w"; lit "3"; port_str])
         && host_word host
      then Some (Send host path) else None
  | [Word a; Word b; Word host; Word d; Less; Word path] =>
      if darwin && bool_decide ([a; b; d] = [lit "nc"; lit "-N"; port_str])
         && host_word host
      then Some (Send host path) else None
  | _ => None
  end.

(** *** Netcat *)

Definition exited (code : Z) (err : str) : result CompletedProcess :=
  Ok {| returncode := code; stdout := []; stderr := err |}.

(** [nc -l ... > 'path'] *)
Definition listen (cmd path : str) (w : world)
  : result CompletedProcess * world :=
  if negb (canonical path) then (run_of (beyond w) cmd, w)
  else if negb (can_write path w)
  then (exited 2 (lit "sh: cannot create file"), w)
  else
    match inbound w with
    | Some (Closes stream) =>
        (exited 0 [], set_files (<[path := stream]> (files w)) None w)
    | Some (Stalls so_far) =>
        (Raise (TimeoutExpired cmd),
         set_files (<[path := so_far]> (files w)) None w)
    | None =>
        (Raise (TimeoutExpired cmd),
         set_files (<[path := []]> (files w)) None w)
    end.

(** [nc ... host 12345 < 'path'] *)
Definition send (cmd host path : str) (w : world)
  : result CompletedProcess * world :=
  if negb (canonical path) then (run_of (beyond w) cmd, w)
  else
    match files w !! path with
    | None =>
        if bool_decide (path ∈ dirs w) then (run_of (beyond w) cmd, w)
        else (exited 2 (lit "sh: cannot open file"), w)
    | Some content =>
        match stalling w !! host with
        | Some taken =>
            (Raise (TimeoutExpired cmd),
             set_out
               (tcp_out w
                ++ [{| peer := host; peer_port := port;
                       carried := take taken content; closed := false |}])
               (udp_out w) w)
        | None =>
            if bool_decide (host ∈ accepting w)
            then (exited 0 [],
                  set_out
                    (tcp_out w
                     ++ [{| peer := host; peer_port := port;
                            carried := content; closed := true |}])
                    (udp_out w) w)
            else (exited 1 [], w)
        end
    end.

Definition run (cmd : str) (w : world) : result CompletedProcess * world :=
  match lex cmd [] None false with
  | Unterminated => (exited 2 (lit "sh: syntax error"), w)
  | Unsupported => (run_of (beyond w) cmd, w)
  | Tokens ts =>
      match interpret (bool_decide (platform w = lit "Darwin")) ts with
      | Some (Listen path) => listen cmd path w
      | Some (Send host path) => send cmd host path w
      | None => (run_of (beyond w) cmd, w)
      end
  end.

(** *** Datagrams *)

Definition open_broadcast (w : world) : option exn * world :=
  if broadcast_permitted w then (None, w)
  else (Some (OSError (lit "Operation not permitted")), w).

Definition sendto (payload : bytes) (addr : str * N) (w : world)
  : option exn * world :=
  if is_ipv4 addr.1
  then (None, set_out (tcp_out w) (udp_out w ++ [(payload, addr)]) w)
  else (Some (OSError (lit "Name or service not known")), w).

(** *** Randomness *)

Definition next_u53 (w : world) : N * world :=
  (hd 0 (entropy w), set_entropy (tl (entropy w)) w).

(** [str(e)], in the manner of the exceptions' texts. *)
Definition describe (e : exn) : str :=
  match e with
  | UnicodeDecodeError _ => lit "'utf-8' codec can't decode bytes"
  | UnicodeEncodeError _ => lit "'utf-8' codec can't encode characters"
  | TimeoutExpired cmd => lit "Command timed out after 300 seconds"
  | SocketTimeout => lit "timed out"
  | OSError s => s
  end.

#[global] Instance runtime : Runtime world := {|
  str_of_exn := describe;
  platform_system := platform;
  datetime_now := clock;
  os_path_exists := exists_;
  os_makedirs := makedirs;
  subprocess_run := run;
  socket_broadcast := open_broadcast;
  socket_sendto := sendto;
  socket_close := id;
  random_u53 := next_u53
|}.

End Posix.

(** ** The header of the specification *)

Module Spec.

(** Modelled from the spec: the TransferHeader of its data model, in the
    layout its section on external interfaces recommends (the PIN in six
    ASCII digits, the length of the file name in four bytes, the file name in
    UTF-8, the size of the file in eight bytes, big-endian both).  The source
    has no header at all; this one serves to build the byte streams a peer
    that follows the specification would send. *)
Record TransferHeader := {
  pin : str;
  filename : str;
  size : N
}.

(** Modelled from the spec: an unsigned number in [width] bytes, the most
    significant first. *)
Fixpoint big_endian (width : nat) (n : N) : bytes :=
  match width with
  | O => []
  | S w => big_endian w (n / 256) ++ [Utf8.byte_of (n mod 256)]
  end.

(** Modelled from the spec: the header as it precedes the payload. *)
Definition serialize (h : TransferHeader) : bytes :=
  let name := default [] (Utf8.encode (filename h)) in
  default [] (Utf8.encode (pin h))
  ++ big_endian 4 (N.of_nat (length name)) ++ name ++ big_endian 8 (size h).

End Spec.

(** ** Two hosts, for the scenarios *)

Module Scenario.

(** The bytes of an ASCII text. *)
Definition text (s : string) : bytes := Utf8.byte_of <$> lit s.
Arguments text s%_string.

Definition noon : datetime :=
  {| year := 2024; month := 5; day := 17;
     hour := 12; minute := 0; second := 0 |}.

(** A host that refuses what the model does not interpret. *)
Definition refusing : Posix.outside :=
  {| Posix.exists_of := λ _, false;
     Posix.makedirs_of := λ _, Some (OSError (lit "[Errno 2] No such file or directory"));
     Posix.run_of := λ _, Posix.exited 127 (lit "sh: not found") |}.

(** The sender's host holds two files; the receiver's address accepts, and
    another address takes three bytes and no more. *)
Definition alice_host : Posix.world :=
  {| Posix.platform := lit "Linux"; Posix.clock := noon;
     Posix.files :=
       {[ lit "/home/alice/report.pdf" := text "%PDF-1.7";
          lit "/home/alice/it's.txt" := text "hi" ]};
     Posix.dirs := {[ lit "/home"; lit "/home/alice" ]};
     Posix.locked := ∅;
     Posix.inbound := None; Posix.accepting := [lit "192.168.1.8"];
     Posix.stalling := {[ lit "192.168.1.9" := 3%nat ]};
     Posix.tcp_out := []; Posix.udp_out := [];
     Posix.broadcast_permitted := true;
     Posix.beyond := refusing;
     Posix.entropy :=
       [4503599627370496; 0; 9007199254740991; 1234567890123456;
        7777777777777777; 900719925474100; 6305039478318694;
        2702159776422298; 8106479329266893; 3602879701896397;
        5404319552844596; 1801439850948199] |}.

Definition bob_host : Posix.world :=
  {| Posix.platform := lit "Darwin"; Posix.clock := noon;
     Posix.files := ∅; Posix.dirs := {[ lit "/tmp"; lit "/tmp/out" ]};
     Posix.locked := ∅;
     Posix.inbound := None; Posix.accepting := [];
     Posix.stalling := ∅;
     Posix.tcp_out := []; Posix.udp_out := [];
     Posix.broadcast_permitted := true;
     Posix.beyond := refusing;
     Posix.entropy := [3141592653589793; 2718281828459045] |}.

Definition alice : App Posix.world :=
  init (lit "192.168.1.7") (lit "/home/alice") alice_host.

Definition bob : App Posix.world :=
  init (lit "192.168.1.8") (lit "/home/bob") bob_host.

(** The sender has chosen a file and typed the receiver's address and PIN. *)
Definition alice_sending (file_path receiver_pin : str) : App Posix.world :=
  perform (TypeReceiverPin receiver_pin)
    (perform (TypeReceiverIp (lit "192.168.1.8"))
       (perform (ChooseFile file_path) alice)).

(** The receiver has chosen the folder and typed the PIN it expects. *)
Definition bob_listening (expected_pin : str) : App Posix.world :=
  perform (TypeExpectedPin expected_pin)
    (perform (ChooseSaveFolder (lit "/tmp/out")) bob).

(** A peer connects to the listening port and sends [stream]. *)
Definition connect (stream : bytes) (self : App Posix.world)
  : App Posix.world :=
  set_os (Posix.arrive stream (os self)) self.

(** A peer connects to the listening port, sends [so_far] and holds the
    connection beyond the time the command has. *)
Definition connect_and_hold (so_far : bytes) (self : App Posix.world)
  : App Posix.world :=
  set_os (Posix.stall so_far (os self)) self.

(** The connection a host made last, as the bytes it carried. *)
Definition last_connection (self : App Posix.world) : bytes :=
  match last (Posix.tcp_out (os self)) with
  | Some c => Posix.carried c
  | None => []
  end.

Definition saved_path : str := lit "/tmp/out/received_file_20240517_120000".

(** A second passes. *)
Definition a_second_later : datetime :=
  {| year := 2024; month := 5; day := 17;
     hour := 12; minute := 0; second := 1 |}.

Definition wait (t : datetime) (self : App Posix.world) : App Posix.world :=
  set_os (Posix.at_time t (os self)) self.

End Scenario.

(** ** More of the discovery: the datagram a host announces itself with *)

(** What reaches a listener when a host at [ip] holding [pin] broadcasts,
    for an address and a PIN of ASCII text. *)
Definition announcement (ip pin : str) : recv_event :=
  Datagram (Utf8.byte_of <$> discovery_message ip pin).

(** ** More of the window: blank entries, and the kinds of message box *)

(** An entry that is empty or holds white space only. *)
Definition blank (s : str) : bool := forallb Py.isspace s.

Definition is_showinfo (d : dialog) : bool :=
  match d with
  | showinfo _ _ => true
  | showerror _ _ => false
  end.

(** ** [get_local_ip]

    What the outside answers is given by the arguments: [probe] is the
    address of the datagram socket connected towards 8.8.8.8, [lookup] is
    [socket.gethostbyname(socket.gethostname())], [system] is
    [platform.system()] and [ipconfig] is the run of
    [ipconfig getifaddr en0]; an answer is an exception when the call
    raises. *)
Definition get_local_ip (probe lookup : result str) (system : str)
  (ipconfig : result CompletedProcess) : str :=
  match probe with
  | Ok ip => ip
  | Raise _ =>
      match lookup with
      | Raise _ => lit "127.0.0.1"
      | Ok ip =>
          if Py.startswith (lit "127.") ip then
            if bool_decide (system = lit "Darwin") then
              match ipconfig with
              | Raise _ => lit "127.0.0.1"
              | Ok result =>
                  if (returncode result =? 0)%Z
                  then Py.strip (stdout result)
                  else ip
              end
            else ip
          else ip
      end
  end.

(** ** A draw for every digit

    A number of the tape on which [random.choices(string.digits)] picks the
    digit [c]: the fraction [draw_of_digit c / 2^53] lies in the tenth of
    the unit interval that belongs to [c]. *)
Definition draw_of_digit (c : N) : N := (c - 0x30) * 900719925474100.

(** * Properties *)

(** ** Strings *)

Section StringFacts.
Implicit Types (s p a b : str) (sep c : N).

Lemma startswith_app p s : Py.startswith p (p ++ s) = true.
Proof.
  induction p as [|c p IH]; [done|]. cbn. by rewrite N.eqb_refl, IH.
Qed.

Lemma startswith_inv p s :
  Py.startswith p s = true -> exists r, s = p ++ r.
Proof.
  revert s. induction p as [|c p IH]; intros s H; [by exists s|].
  destruct s as [|d s]; [done|]. cbn in H.
  apply andb_true_iff in H as [Hc Hp]. apply N.eqb_eq in Hc as ->.
  destruct (IH _ Hp) as [r ->]. by exists r.
Qed.

Lemma split_not_nil sep s : Py.split sep s <> [].
Proof.
  destruct s as [|c s]; [done|]. cbn.
  destruct (c =? sep); [done|]. by destruct (Py.split sep s).
Qed.

Lemma split_cons_ne sep c s :
  c <> sep ->
  exists p ps, Py.split sep s = p :: ps /\ Py.split sep (c :: s) = (c :: p) :: ps.
Proof.
  intros Hc. cbn. apply N.eqb_neq in Hc. rewrite Hc.
  destruct (Py.split sep s) as [|p ps] eqn:E; [by apply split_not_nil in E|].
  eauto.
Qed.

Lemma split_no_sep sep s : sep ∉ s -> Py.split sep s = [s].
Proof.
  induction s as [|c s IH]; [done|]. intros H.
  apply not_elem_of_cons in H as [Hc Hs].
  destruct (split_cons_ne sep c s) as (p & ps & E & ->); [done|].
  rewrite IH in E by done. by simplify_eq.
Qed.

Lemma split_app_sep sep a b :
  sep ∉ a -> Py.split sep (a ++ sep :: b) = a :: Py.split sep b.
Proof.
  induction a as [|c a IH]; intros H.
  - cbn. by rewrite N.eqb_refl.
  - apply not_elem_of_cons in H as [Hc Ha].
    destruct (split_cons_ne sep c (a ++ sep :: b)) as (p & ps & E & E');
      [done|].
    rewrite <- app_comm_cons, E'. rewrite IH in E by done. by simplify_eq.
Qed.

Lemma join_split sep s : Py.join [sep] (Py.split sep s) = s.
Proof.
  induction s as [|c s IH]; [done|]. cbn [Py.split].
  destruct (c =? sep) eqn:Hc.
  - apply N.eqb_eq in Hc as ->.
    destruct (Py.split sep s) as [|p ps] eqn:E; [by apply split_not_nil in E|].
    change (Py.join [sep] ([] :: p :: ps)) with ([] ++ [sep] ++ Py.join [sep] (p :: ps)).
    by rewrite IH.
  - destruct (Py.split sep s) as [|p ps] eqn:E; [by apply split_not_nil in E|].
    destruct ps as [|q ps]; cbn in *; by rewrite <- IH.
Qed.

Lemma split_parts_no_sep sep s : Forall (λ p, sep ∉ p) (Py.split sep s).
Proof.
  induction s as [|c s IH]; cbn.
  - constructor; [apply not_elem_of_nil|constructor].
  - destruct (c =? sep) eqn:Hc.
    + constructor; [apply not_elem_of_nil|done].
    + apply N.eqb_neq in Hc.
      destruct (Py.split sep s) as [|p ps] eqn:E;
        [by apply split_not_nil in E|].
      inversion IH; subst. constructor; [|done].
      apply not_elem_of_cons. split; [congruence|done].
Qed.

End StringFacts.

(** ** UTF-8 on ASCII text *)

Lemma to_N_byte_of n : n < 256 -> Byte.to_N (Utf8.byte_of n) = n.
Proof.
  intros Hn. unfold Utf8.byte_of.
  destruct (Byte.of_N n) as [b|] eqn:E.
  - by apply Byte.to_of_N.
  - apply Byte.of_N_None_iff in E. lia.
Qed.

Lemma encode_ascii s :
  ascii_text s -> Utf8.encode s = Some (Utf8.byte_of <$> s).
Proof.
  induction 1 as [|c s Hc _ IH]; [done|].
  cbn [Utf8.encode]. rewrite IH. unfold Utf8.encode_char.
  by apply N.ltb_lt in Hc as ->.
Qed.

Lemma decode_ascii s :
  ascii_text s -> Utf8.decode (Utf8.byte_of <$> s) = Some s.
Proof.
  induction 1 as [|c s Hc _ IH]; [done|].
  rewrite fmap_cons. cbn [Utf8.decode].
  rewrite to_N_byte_of by lia. apply N.ltb_lt in Hc as ->.
  by rewrite IH.
Qed.

Lemma ascii_text_app s t : ascii_text s -> ascii_text t -> ascii_text (s ++ t).
Proof. apply Forall_app_2. Qed.

Lemma ascii_text_lit s :
  forallb (λ c, c <? 0x80) (lit s) = true -> ascii_text (lit s).
Proof.
  intros H. apply Forall_forall. intros c Hc.
  rewrite forallb_forall in H. apply N.ltb_lt, H. by apply list_elem_of_In.
Qed.

(** ** UTF-8: decoding undoes encoding *)

(** Quotients and remainders by constants, for [lia]. *)
Ltac Zify.zify_post_hook ::= Z.to_euclidean_division_equations.

Ltac decide_tests :=
  repeat match goal with
         | |- context [?a <? ?b] =>
             destruct (N.ltb_spec a b); try lia
         | |- context [?a <=? ?b] =>
             destruct (N.leb_spec a b); try lia
         | |- context [?a =? ?b] =>
             destruct (N.eqb_spec a b); try lia
         end.

Lemma decode_encode_char c (bs rest : bytes) :
  Utf8.encode_char c = Some bs ->
  Utf8.decode (bs ++ rest) = cons c <$> Utf8.decode rest.
Proof.
  unfold Utf8.encode_char, Utf8.is_surrogate.
  destruct (N.ltb_spec c 0x80).
  { intros [= <-]. cbn [app Utf8.decode]. rewrite to_N_byte_of by lia.
    by decide_tests. }
  destruct (N.ltb_spec c 0x800).
  { intros [= <-]. cbn [app Utf8.decode].
    unfold Utf8.cont, Utf8.between, Utf8.low6.
    rewrite !to_N_byte_of by lia.
    decide_tests. cbn [andb]. do 2 f_equal. lia. }
  destruct (N.ltb_spec c 0x10000).
  { destruct (N.leb_spec 0xD800 c); destruct (N.leb_spec c 0xDFFF);
      cbn [andb]; try discriminate.
    all: intros [= <-]; cbn [app Utf8.decode].
    all: unfold Utf8.second3, Utf8.cont, Utf8.between, Utf8.low6.
    all: rewrite !to_N_byte_of by lia.
    all: decide_tests; cbn [andb]; do 2 f_equal; lia. }
  destruct (N.ltb_spec c 0x110000); [|discriminate].
  intros [= <-]. cbn [app Utf8.decode].
  unfold Utf8.second4, Utf8.cont, Utf8.between, Utf8.low6.
  rewrite !to_N_byte_of by lia.
  decide_tests; cbn [andb]; do 2 f_equal; lia.
Qed.

(** [b.decode('utf-8')] gives back [s] when [b] is [s.encode('utf-8')]. *)
Lemma decode_encode (s : str) (b : bytes) :
  Utf8.encode s = Some b -> Utf8.decode b = Some s.
Proof.
  revert b. induction s as [|c s IH]; intros b; cbn [Utf8.encode].
  - by intros [= <-].
  - destruct (Utf8.encode_char c) as [bs|] eqn:Ec; [|done].
    destruct (Utf8.encode s) as [r|]; [|done].
    intros [= <-]. rewrite (decode_encode_char c bs r Ec).
    by rewrite (IH r).
Qed.

Ltac Zify.zify_post_hook ::= idtac.

(** ** Digits, octets, addresses and PINs *)

Lemma is_digit_spec c : is_digit c = true <-> 0x30 <= c <= 0x39.
Proof. unfold is_digit. rewrite andb_true_iff, !N.leb_le. tauto. Qed.

Lemma digits_ascii s : forallb is_digit s = true -> ascii_text s.
Proof.
  intros H. apply Forall_forall. intros c Hc.
  rewrite forallb_forall in H. apply list_elem_of_In, H, is_digit_spec in Hc. lia.
Qed.

Lemma digits_without c s :
  is_digit c = false -> forallb is_digit s = true -> c ∉ s.
Proof.
  intros Hc H Hin. rewrite forallb_forall in H.
  apply list_elem_of_In, H in Hin. congruence.
Qed.

Lemma is_octet_inv o :
  is_octet o = true ->
  o <> [] /\ (length o <= 3)%nat /\ forallb is_digit o = true.
Proof.
  unfold is_octet. rewrite !andb_true_iff, negb_true_iff, bool_decide_eq_false.
  intros [[[? ?%Nat.leb_le] ?] _]. done.
Qed.

Lemma is_ipv4_inv ip :
  is_ipv4 ip = true ->
  exists o1 o2 o3 o4,
    Py.split 0x2E ip = [o1; o2; o3; o4]
    /\ ip = o1 ++ lit "." ++ o2 ++ lit "." ++ o3 ++ lit "." ++ o4
    /\ Forall (λ o, is_octet o = true) [o1; o2; o3; o4].
Proof.
  unfold is_ipv4. rewrite andb_true_iff, Nat.eqb_eq, forallb_forall.
  intros [Hlen Hoct].
  destruct (Py.split 0x2E ip) as [|o1 [|o2 [|o3 [|o4 [|? ?]]]]] eqn:E;
    try discriminate.
  exists o1, o2, o3, o4. split; [done|]. split.
  - by rewrite <- (join_split 0x2E ip), E.
  - apply Forall_forall. intros o Ho. by apply Hoct, list_elem_of_In.
Qed.

Lemma is_ipv4_text ip :
  is_ipv4 ip = true ->
  ascii_text ip /\ (0x3A ∉ ip) /\ (length ip <= 15)%nat.
Proof.
  intros (o1 & o2 & o3 & o4 & _ & -> & Ho)%is_ipv4_inv.
  repeat match goal with
         | H : Forall _ (_ :: _) |- _ =>
             apply Forall_cons in H as [(? & ? & ?)%is_octet_inv H]
         end.
  assert (is_digit 0x3A = false) as Hcolon by done.
  split; [|split].
  - repeat apply ascii_text_app; try by apply digits_ascii.
    all: by apply ascii_text_lit.
  - rewrite !not_elem_of_app. repeat split; try by apply digits_without.
    all: by apply not_elem_of_cons; split; [|apply not_elem_of_nil].
  - rewrite !length_app. cbn. lia.
Qed.

Lemma is_pin_inv pin :
  is_pin pin = true ->
  length pin = 6%nat /\ forallb is_digit pin = true.
Proof. unfold is_pin. by rewrite andb_true_iff, Nat.eqb_eq. Qed.

Lemma is_pin_text pin :
  is_pin pin = true -> ascii_text pin /\ (0x3A ∉ pin) /\ length pin = 6%nat.
Proof.
  intros [Hlen Hd]%is_pin_inv. split; [by apply digits_ascii|].
  split; [by apply digits_without|done].
Qed.

(** ** Rounding to a double *)

Lemma round_half_even_0 m : round_half_even m 0 = m.
Proof.
  unfold round_half_even. rewrite N.pow_0_r, N.mod_1_r, N.div_1_r. done.
Qed.

(** Rounding moves a number by half a unit of the last place at most. *)
Lemma round_half_even_le m s :
  2 * (round_half_even m s * 2 ^ s) <= 2 * m + 2 ^ s.
Proof.
  unfold round_half_even.
  assert (0 < 2 ^ s) as Hp by (apply N.neq_0_lt_0, N.pow_nonzero; lia).
  pose proof (N.div_mod m (2 ^ s) ltac:(lia)) as Hm.
  pose proof (N.mod_lt m (2 ^ s) ltac:(lia)) as Hr.
  revert Hp Hm Hr.
  generalize (m / 2 ^ s). generalize (m mod 2 ^ s). generalize (2 ^ s).
  intros p r q Hp Hm Hr.
  destruct (N.compare_spec (2 * r) p); [destruct (N.even q)|..]; nia.
Qed.

Lemma size_small n : n < 2 ^ 53 -> N.size n - 53 = 0.
Proof.
  intros Hn. destruct (N.eq_dec n 0) as [->|Hz]; [done|].
  rewrite N.size_log2 by done.
  assert (N.log2 n < 53) by (apply N.log2_lt_pow2; lia). lia.
Qed.

(** A natural number of 53 bits at most is a double. *)
Lemma double_of_N_small n : n < 2 ^ 53 -> double_of_N n = n.
Proof.
  intros Hn. unfold double_of_N. rewrite size_small by done.
  rewrite round_half_even_0, N.pow_0_r. lia.
Qed.

(** The product of a fraction below one by [n] does not round up to [n]. *)
Lemma double_of_product_lt u n :
  u < 2 ^ 53 -> 0 < n -> double_of_N (u * n) / 2 ^ 53 < n.
Proof.
  intros Hu Hn. apply N.Div0.div_lt_upper_bound.
  unfold double_of_N. set (m := u * n). set (s := N.size m - 53).
  pose proof (round_half_even_le m s) as Hround.
  assert (m + n <= 2 ^ 53 * n) as Hm by (subst m; nia).
  destruct (N.eq_dec s 0) as [Hs|Hs].
  - rewrite Hs in *. rewrite round_half_even_0, N.pow_0_r in *. lia.
  - assert (2 ^ s * 2 ^ 53 <= 2 * m) as Hsize.
    { rewrite <- N.pow_add_r.
      replace (s + 53) with (N.size m) by lia.
      pose proof (N.size_le m) as Hle. rewrite N.succ_double_spec in Hle.
      assert (N.size m = N.succ (N.size m - 1)) as E by lia.
      rewrite E, N.pow_succ_r' in Hle |- *. lia. }
    revert Hround Hsize Hm.
    generalize (round_half_even m s * 2 ^ s). generalize (2 ^ s).
    generalize (2 ^ 53). intros P t D Hround Hsize Hm. nia.
Qed.

(** ** The PIN *)

Section PinFacts.
Context {World : Type} `{RT : Runtime World}.
Implicit Types (self : App World) (w : World).

Lemma random_index_lt n w :
  0 < n -> n < 2 ^ 53 -> (random_index n w).1 < n.
Proof.
  intros Hn Hsmall. unfold random_index. destruct (random_u53 w) as [u w'].
  cbn [fst]. rewrite (double_of_N_small n) by done.
  apply double_of_product_lt; [|done]. apply N.mod_lt. lia.
Qed.

Lemma index_digits i : i < 10 -> is_digit (Py.index Py.digits i) = true.
Proof.
  intros Hi. unfold Py.index.
  assert (N.to_nat i < 10)%nat as Hn by lia.
  generalize dependent (N.to_nat i). intros n Hn.
  do 10 (destruct n as [|n]; [reflexivity|]). lia.
Qed.

Lemma join_empty_cons (p : str) ps : Py.join [] (p :: ps) = p ++ Py.join [] ps.
Proof. destruct ps; cbn; [by rewrite app_nil_r|done]. Qed.

Lemma random_choices_digits k w :
  length (Py.join [] (random_choices Py.digits k w).1) = k
  /\ forallb is_digit (Py.join [] (random_choices Py.digits k w).1) = true.
Proof.
  revert w. induction k as [|k IH]; intros w; [done|].
  cbn [random_choices].
  pose proof (random_index_lt (N.of_nat (length Py.digits)) w) as Hlt.
  destruct (random_index (N.of_nat (length Py.digits)) w) as [i w1].
  specialize (IH w1). destruct (random_choices Py.digits k w1) as [rest w2].
  cbn [fst] in *. rewrite join_empty_cons. cbn [app length forallb].
  destruct IH as [-> ->]. split; [done|].
  rewrite index_digits; [done|]. by apply Hlt.
Qed.

Lemma generate_pin_is_pin w : is_pin (generate_pin w).1 = true.
Proof.
  unfold generate_pin, is_pin.
  pose proof (random_choices_digits 6 w) as [Hl Hd].
  destruct (random_choices Py.digits 6 w) as [cs w'].
  cbn [fst] in *. by rewrite Hl, Hd.
Qed.

Lemma refresh_pin_code self :
  pin_code (refresh_pin self) = (generate_pin (os self)).1.
Proof. unfold refresh_pin. by destruct (generate_pin (os self)). Qed.

Lemma init_pin_code ip home w :
  pin_code (init ip home w) = (generate_pin w).1.
Proof. unfold init. by destruct (generate_pin w). Qed.

(** The other methods leave the PIN alone. *)

Lemma send_file_pin_code self : pin_code (send_file self) = pin_code self.
Proof. unfold send_file, send_thread. by repeat case_match. Qed.

Lemma start_receiving_pin_code self :
  pin_code (start_receiving self) = pin_code self.
Proof. unfold start_receiving, receive_thread. by repeat case_match. Qed.

Lemma broadcast_discovery_pin_code self :
  pin_code (broadcast_discovery self) = pin_code self.
Proof. unfold broadcast_discovery. by repeat case_match. Qed.

Lemma discovery_iteration_pin_code ev self :
  pin_code (discovery_iteration ev self) = pin_code self.
Proof.
  unfold discovery_iteration, handle_discovery.
  repeat case_match; simplify_eq; done.
Qed.

Lemma perform_pin_code a self :
  a <> ClickNewPin -> pin_code (perform a self) = pin_code self.
Proof.
  destruct a; intros Ha; cbn [perform]; try done.
  - unfold select_file. by case_match.
  - unfold select_save_folder. by case_match.
  - apply broadcast_discovery_pin_code.
  - apply send_file_pin_code.
  - apply start_receiving_pin_code.
  - case_match; [apply discovery_iteration_pin_code|done].
Qed.

(** C10. Every PIN the application holds is a string of exactly six decimal
    digits: the PIN of [__init__], the PIN after every [refresh_pin], and
    the PIN in every state that any sequence of operations reaches. *)
Theorem pin_is_six_digits (self : App World) :
  reachable self -> is_pin (pin_code self) = true.
Proof.
  induction 1 as [ip home w|a self Hr IH].
  - rewrite init_pin_code. apply generate_pin_is_pin.
  - destruct a; try (by rewrite perform_pin_code).
    cbn [perform]. rewrite refresh_pin_code. apply generate_pin_is_pin.
Qed.

End PinFacts.

(** ** Discovery *)

Lemma length_split sep (s : str) :
  length (Py.split sep s) = S (length (filter (λ c, c = sep) s)).
Proof.
  induction s as [|c s IH]; [done|]. cbn [Py.split].
  destruct (N.eqb_spec c sep) as [->|Hc].
  - rewrite filter_cons_True by done. cbn. by rewrite IH.
  - rewrite filter_cons_False by done.
    destruct (Py.split sep s) as [|p ps] eqn:E;
      [by apply split_not_nil in E|].
    by rewrite <- IH.
Qed.

(** The fields of a message made of the prefix, an address, a PIN and,
    maybe, further fields. *)
Lemma split_discovery_message ip pin tail :
  0x3A ∉ ip -> 0x3A ∉ pin -> tail = [] \/ head tail = Some 0x3A ->
  exists more,
    Py.split 0x3A (discovery_message ip pin ++ tail)
    = lit "DISCOVERY" :: ip :: pin :: more.
Proof.
  intros Hip Hpin Htail. unfold discovery_message.
  change (lit "DISCOVERY:") with (lit "DISCOVERY" ++ [0x3A]).
  change (lit ":") with [0x3A].
  rewrite <- !app_assoc. cbn [app].
  rewrite split_app_sep.
  2:{ apply (bool_decide_eq_false_1 (0x3A ∈ lit "DISCOVERY")). by vm_compute. }
  rewrite split_app_sep by done.
  destruct Htail as [->|Htail].
  - rewrite app_nil_r, split_no_sep by done. by exists [].
  - destruct tail as [|c tail]; simplify_eq/=.
    rewrite split_app_sep by done. eauto.
Qed.

Section DiscoveryFacts.
Context {World : Type} `{RT : Runtime World}.
Implicit Types (self : App World) (w : World).

Lemma handle_discovery_well_formed self data ip pin tail :
  Utf8.decode data = Some (discovery_message ip pin ++ tail) ->
  0x3A ∉ ip -> 0x3A ∉ pin -> tail = [] \/ head tail = Some 0x3A ->
  handle_discovery data self = Ok (record_peer ip pin self).
Proof.
  intros Hdec Hip Hpin Htail. unfold handle_discovery, bytes_decode.
  rewrite Hdec.
  destruct (split_discovery_message ip pin tail) as [more ->]; [done..|].
  unfold discovery_message. rewrite <- app_assoc, startswith_app. done.
Qed.

Lemma handle_discovery_malformed self data message :
  Utf8.decode data = Some message ->
  Py.startswith (lit "DISCOVERY:") message = false
  \/ (colons message < 2)%nat ->
  handle_discovery data self = Ok self.
Proof.
  intros Hdec Hbad. unfold handle_discovery, bytes_decode. rewrite Hdec.
  destruct Hbad as [->|Hfew]; [done|].
  case_match; [|done].
  rewrite length_split. fold (colons message).
  destruct (Nat.leb_spec 3 (S (colons message))); [lia|done].
Qed.

Lemma handle_discovery_undecodable self data :
  Utf8.decode data = None ->
  handle_discovery data self = Raise (UnicodeDecodeError data).
Proof. intros H. unfold handle_discovery, bytes_decode. by rewrite H. Qed.

(** The datagram of a broadcast, and what a listener makes of it. *)
Lemma discovery_message_text ip pin :
  is_ipv4 ip = true -> is_pin pin = true ->
  ascii_text (discovery_message ip pin)
  /\ (length (discovery_message ip pin) <= 1024)%nat.
Proof.
  intros (Hia & _ & Hil)%is_ipv4_text (Hpa & _ & Hpl)%is_pin_text.
  unfold discovery_message. split.
  - repeat apply ascii_text_app; try done; by apply ascii_text_lit.
  - rewrite !length_app, Hpl. cbn. lia.
Qed.

Lemma discovery_payload ip pin :
  is_ipv4 ip = true -> is_pin pin = true ->
  let payload := Utf8.byte_of <$> discovery_message ip pin in
  Utf8.encode (discovery_message ip pin) = Some payload
  /\ Utf8.decode (recvfrom 1024 payload) = Some (discovery_message ip pin).
Proof.
  intros Hip Hpin payload.
  destruct (discovery_message_text ip pin) as [Ha Hl]; [done..|].
  split; [by apply encode_ascii|].
  unfold recvfrom. rewrite take_ge by (unfold payload; by rewrite length_fmap).
  by apply decode_ascii.
Qed.

Lemma discovery_iteration_broadcast self ip pin :
  is_ipv4 ip = true -> is_pin pin = true ->
  discovery_iteration
    (Datagram (Utf8.byte_of <$> discovery_message ip pin)) self
  = record_peer ip pin self.
Proof.
  intros Hip Hpin. unfold discovery_iteration.
  destruct (discovery_payload ip pin) as [_ Hdec]; [done..|].
  rewrite (handle_discovery_well_formed self _ ip pin []); try done.
  - by rewrite app_nil_r.
  - by apply is_ipv4_text.
  - by apply is_pin_text.
  - by left.
Qed.

End DiscoveryFacts.

Section DiscoveryTheorems.
Context {World : Type} `{RT : Runtime World}.
Implicit Types (self : App World) (w : World).

(** C6, as amended.  Of every datagram the listener keeps the first 1024
    bytes.  When they decode as UTF-8 to a message made of the prefix
    [DISCOVERY:], an address field, a PIN field and maybe further fields,
    the listener maps the address to the PIN in the peer mapping and logs
    the peer.  When they decode to a message without the prefix or with
    fewer than two colons, the datagram is dropped and nothing changes at
    all.  When they do not decode, the mapping and the message boxes stay
    as they are, but the listener, while it runs, writes the line
    [Discovery error: ...] to the log. *)
Theorem discovery_datagram_handling self (payload : bytes) :
  let data := recvfrom 1024 payload in
  let self' := discovery_iteration (Datagram payload) self in
  match Utf8.decode data with
  | Some message =>
      (forall ip pin tail,
          message = discovery_message ip pin ++ tail ->
          0x3A ∉ ip -> 0x3A ∉ pin -> tail = [] \/ head tail = Some 0x3A ->
          discovered_peers self' = <[ip := pin]> (discovered_peers self)
          /\ log_text self'
             = log_text self
               ++ [lit "Discovered peer: " ++ ip ++ lit " (PIN: " ++ pin
                   ++ lit ")" ++ nl])
      /\ (Py.startswith (lit "DISCOVERY:") message = false
          \/ (colons message < 2)%nat ->
          self' = self)
  | None =>
      discovered_peers self' = discovered_peers self
      /\ dialogs self' = dialogs self
      /\ log_text self'
         = log_text self
           ++ (if discovery_running self
               then [lit "Discovery error: "
                     ++ str_of_exn (UnicodeDecodeError data) ++ nl]
               else [])
  end.
Proof.
  intros data self'. subst self'. unfold discovery_iteration. fold data.
  destruct (Utf8.decode data) as [message|] eqn:Hdec.
  - split.
    + intros ip pin tail -> Hip Hpin Htail.
      rewrite (handle_discovery_well_formed self data ip pin tail) by done.
      split; [done|]. unfold record_peer, log.
      cbn [log_text set_log_text set_discovered_peers].
      by rewrite <- !app_assoc.
    + intros Hbad. by rewrite (handle_discovery_malformed self data message).
  - rewrite handle_discovery_undecodable by done.
    destruct (discovery_running self); cbn; by rewrite ?app_nil_r.
Qed.

(** The address of the broadcast: the last of four fields gives way to 255. *)
Lemma broadcast_ip_of_quad ip o1 o2 o3 o4 :
  Py.split 0x2E ip = [o1; o2; o3; o4] ->
  broadcast_ip_of ip = o1 ++ lit "." ++ o2 ++ lit "." ++ o3 ++ lit ".255".
Proof.
  intros E. unfold broadcast_ip_of. rewrite E. cbn [Py.all_but_last removelast Py.join].
  by rewrite <- !app_assoc.
Qed.

Lemma broadcast_ip_of_ipv4 ip :
  is_ipv4 ip = true -> is_ipv4 (broadcast_ip_of ip) = true.
Proof.
  intros (o1 & o2 & o3 & o4 & E & _ & Ho)%is_ipv4_inv.
  rewrite (broadcast_ip_of_quad ip o1 o2 o3 o4) by done.
  repeat match goal with
         | H : Forall _ (_ :: _) |- _ => apply Forall_cons in H as [? H]
         end.
  assert (forall o, is_octet o = true -> 0x2E ∉ o) as Hdot.
  { intros o (_ & _ & Hd)%is_octet_inv. by apply digits_without. }
  unfold is_ipv4. change (lit ".") with [0x2E].
  change (lit ".255") with (0x2E :: lit "255"). cbn [app].
  rewrite !split_app_sep by auto.
  rewrite split_no_sep.
  2:{ apply (bool_decide_eq_false_1 (0x2E ∈ lit "255")). by vm_compute. }
  cbn [length forallb Nat.eqb andb].
  by repeat match goal with H : is_octet _ = true |- _ => rewrite H; clear H end.
Qed.

(** C7. For every local address of four dotted numbers and every PIN,
    with [payload] the UTF-8 encoding of the text
    [DISCOVERY:<localIp>:<pin>] and nothing after it: when the socket can be
    had and the sending succeeds, what [broadcast_discovery] does to the
    world is one [sendto] of that payload, between the opening and the
    closing of the socket, to the discovery port of the address that has
    255 for the last number of the local address. *)
Theorem broadcast_sends_one_datagram self (payload : bytes) :
  is_ipv4 (local_ip self) = true ->
  Utf8.encode (lit "DISCOVERY:" ++ local_ip self ++ lit ":" ++ pin_code self)
  = Some payload ->
  let opened := (socket_broadcast (os self)).2 in
  (socket_broadcast (os self)).1 = None ->
  (socket_sendto payload (broadcast_ip_of (local_ip self), 12346) opened).1
  = None ->
  os (broadcast_discovery self)
  = socket_close
      (socket_sendto payload (broadcast_ip_of (local_ip self), 12346)
         opened).2
  /\ (exists o1 o2 o3 o4,
         local_ip self = o1 ++ lit "." ++ o2 ++ lit "." ++ o3 ++ lit "." ++ o4
         /\ Forall (λ o, is_octet o = true) [o1; o2; o3; o4]
         /\ broadcast_ip_of (local_ip self)
            = o1 ++ lit "." ++ o2 ++ lit "." ++ o3 ++ lit ".255").
Proof.
  intros Hip Henc opened Hopen Hsend. split.
  - unfold broadcast_discovery. subst opened.
    destruct (socket_broadcast (os self)) as [r0 w0]. cbn [fst snd] in *.
    subst r0. cbn [local_ip pin_code set_os os].
    unfold str_encode, discovery_message. rewrite Henc.
    unfold discovery_port.
    destruct (socket_sendto payload _ w0) as [r1 w1]. cbn [fst snd] in *.
    by subst r1.
  - destruct (is_ipv4_inv _ Hip) as (o1 & o2 & o3 & o4 & E & Hjoin & Ho).
    exists o1, o2, o3, o4. split; [done|]. split; [done|].
    by apply (broadcast_ip_of_quad _ o1 o2 o3 o4).
Qed.

(** C9. For every application whose local address is a dotted address of
    four numbers and whose PIN is one the generator produces, the datagram
    that [broadcast_discovery] builds and hands to [sendto] (the one
    [sendto] it makes when the socket can be had and the sending succeeds)
    is accepted by the parser of the listener: the 1024 bytes the listener
    keeps decode to a message that starts with [DISCOVERY:] and splits at
    the colons into exactly the three fields [DISCOVERY], the address and
    the PIN, so that a listener that receives the datagram maps the address
    to the PIN and logs the peer. *)
Theorem broadcast_datagram_parses_back (sender listener : App World) w :
  is_ipv4 (local_ip sender) = true ->
  pin_code sender = (generate_pin w).1 ->
  exists payload message,
    str_encode (discovery_message (local_ip sender) (pin_code sender))
    = Ok payload
    /\ (let opened := (socket_broadcast (os sender)).2 in
        let sent :=
          socket_sendto payload
            (broadcast_ip_of (local_ip sender), discovery_port) opened in
        (socket_broadcast (os sender)).1 = None -> sent.1 = None ->
        os (broadcast_discovery sender) = socket_close sent.2)
    /\ bytes_decode (recvfrom 1024 payload) = Ok message
    /\ Py.startswith (lit "DISCOVERY:") message = true
    /\ Py.split 0x3A message
       = [lit "DISCOVERY"; local_ip sender; pin_code sender]
    /\ discovery_iteration (Datagram payload) listener
       = record_peer (local_ip sender) (pin_code sender) listener
    /\ discovered_peers (discovery_iteration (Datagram payload) listener)
       = <[local_ip sender := pin_code sender]> (discovered_peers listener).
Proof.
  intros Hip Hgen.
  assert (is_pin (pin_code sender) = true) as Hpin
    by (rewrite Hgen; apply generate_pin_is_pin).
  set (ip := local_ip sender) in *. set (pin := pin_code sender) in *.
  destruct (discovery_payload ip pin) as [Henc Hdec]; [done..|].
  exists (Utf8.byte_of <$> discovery_message ip pin), (discovery_message ip pin).
  split; [unfold str_encode; by rewrite Henc|]. split.
  { intros opened sent Hopen Hsent. subst opened sent.
    unfold broadcast_discovery.
    destruct (socket_broadcast (os sender)) as [r0 w0]. cbn [fst snd] in *.
    subst r0. cbn [local_ip pin_code set_os os]. fold ip pin.
    unfold str_encode. rewrite Henc.
    destruct (socket_sendto _ _ w0) as [r1 w1]. cbn [fst snd] in *.
    by subst r1. }
  split; [unfold bytes_decode; by rewrite Hdec|].
  split; [apply startswith_app|]. split.
  { destruct (is_ipv4_text ip Hip) as (_ & Hic & _).
    destruct (is_pin_text pin Hpin) as (_ & Hpc & _).
    unfold discovery_message.
    change (lit "DISCOVERY:") with (lit "DISCOVERY" ++ [0x3A]).
    change (lit ":") with [0x3A]. rewrite <- !app_assoc. cbn [app].
    rewrite split_app_sep.
    2:{ apply (bool_decide_eq_false_1 (0x3A ∈ lit "DISCOVERY")).
        by vm_compute. }
    by rewrite split_app_sep, split_no_sep. }
  rewrite discovery_iteration_broadcast by done. done.
Qed.

End DiscoveryTheorems.

(** ** The model of the file system *)

Lemma split_app_last sep (p last : str) :
  sep ∉ last ->
  Py.split sep (p ++ sep :: last) = Py.split sep p ++ [last].
Proof.
  intros Hl. induction p as [|c p IH].
  - cbn [app Py.split]. rewrite N.eqb_refl. by rewrite split_no_sep.
  - rewrite <- app_comm_cons. cbn [Py.split]. rewrite IH.
    destruct (c =? sep); [done|].
    destruct (Py.split sep p) as [|q qs] eqn:E;
      [by apply split_not_nil in E|done].
Qed.

Lemma forallb_Forall {A} (f : A -> bool) (l : list A) :
  forallb f l = true <-> Forall (λ x, f x = true) l.
Proof.
  rewrite forallb_forall, Forall_forall. split; intros H x Hx; apply H.
  - by apply list_elem_of_In.
  - by apply list_elem_of_In.
Qed.

Lemma join_cons_cons (sep p q : str) ps :
  Py.join sep (p :: q :: ps) = p ++ sep ++ Py.join sep (q :: ps).
Proof. done. Qed.

Lemma Forall_join (P : N -> Prop) (sep : str) (parts : list str) :
  Forall P sep -> Forall (Forall P) parts -> Forall P (Py.join sep parts).
Proof.
  intros Hsep Hparts. induction Hparts as [|p ps Hp Hps IH]; [constructor|].
  destruct ps as [|q ps]; [done|]. rewrite join_cons_cons.
  by repeat apply Forall_app_2.
Qed.

Lemma canonical_inv (p : str) :
  Posix.canonical p = true ->
  (length p <= 1023)%nat
  /\ exists c cs,
      Py.split 0x2F p = [] :: c :: cs
      /\ Forall (λ x, Posix.component x = true) (c :: cs).
Proof.
  unfold Posix.canonical. rewrite andb_true_iff, Nat.leb_le.
  intros [Hlen H]. split; [done|].
  destruct (Py.split 0x2F p) as [|[|? ?] [|c cs]]; try done.
  exists c, cs. split; [done|]. by apply forallb_Forall.
Qed.

Lemma component_inv (c : str) :
  Posix.component c = true ->
  c <> [] /\ Forall (λ x, Posix.printable x = true) c.
Proof.
  unfold Posix.component.
  rewrite !andb_true_iff, !negb_true_iff, !bool_decide_eq_false.
  intros [[[[? _] _] _] ?]. split; [done|]. by apply forallb_Forall.
Qed.

Lemma canonical_printable (p : str) :
  Posix.canonical p = true -> Forall (λ x, Posix.printable x = true) p.
Proof.
  intros (_ & c & cs & E & Hc)%canonical_inv.
  rewrite <- (join_split 0x2F p), E.
  apply Forall_join; [by repeat constructor|].
  constructor; [constructor|].
  eapply Forall_impl; [exact Hc|]. intros x Hx. by apply component_inv.
Qed.

Lemma canonical_not_nil (p : str) : Posix.canonical p = true -> p <> [].
Proof. by intros (_ & c & cs & E & _)%canonical_inv ->. Qed.

Lemma canonical_no_trailing_slash (p : str) :
  Posix.canonical p = true -> Py.endswith (lit "/") p = false.
Proof.
  intros (_ & c & cs & E & Hc)%canonical_inv.
  destruct (Py.endswith (lit "/") p) eqn:Hend; [|done]. exfalso.
  unfold Py.endswith in Hend. apply startswith_inv in Hend as [r Hr].
  apply (f_equal (@rev N)) in Hr. rewrite rev_involutive in Hr.
  change (rev (rev (lit "/") ++ r)) with (rev ([0x2F] ++ r)) in Hr.
  rewrite rev_app_distr in Hr. cbn [rev app] in Hr. subst p.
  rewrite split_app_last in E by apply not_elem_of_nil.
  assert ([] ∈ c :: cs) as Hin.
  { destruct (Py.split 0x2F (rev r)) as [|x xs] eqn:Ex;
      [by apply split_not_nil in Ex|].
    injection E as _ <-. apply elem_of_app. right. constructor. }
  rewrite Forall_forall in Hc. by apply Hc in Hin.
Qed.

Lemma canonical_absolute (p : str) :
  Posix.canonical p = true -> exists r, p = 0x2F :: r.
Proof.
  intros (_ & c & cs & E & _)%canonical_inv.
  destruct p as [|x p]; [done|]. cbn [Py.split] in E.
  destruct (N.eqb_spec x 0x2F) as [->|?]; [by eexists|].
  by destruct (Py.split 0x2F p).
Qed.

Lemma parent_app (folder name : str) :
  0x2F ∉ name -> Posix.parent (folder ++ lit "/" ++ name) = folder.
Proof.
  intros Hn. unfold Posix.parent. change (lit "/" ++ name) with (0x2F :: name).
  rewrite split_app_last by done. unfold Py.all_but_last.
  rewrite removelast_last. change (lit "/") with [0x2F]. apply join_split.
Qed.
(** ** The model of the shell *)

Lemma lex_quoted (path rest : str) done (cur : str) :
  Forall (λ c, Posix.printable c = true) path -> 0x27 ∉ path ->
  Posix.lex (path ++ 0x27 :: rest) done (Some cur) true
  = Posix.lex rest done (Some (cur ++ path)) false.
Proof.
  intros Hp. revert cur. induction Hp as [|c path Hc _ IH]; intros cur Hq.
  - cbn. by rewrite app_nil_r.
  - apply not_elem_of_cons in Hq as [Hne Hq].
    cbn [app Posix.lex].
    assert ((c =? 0x27) = false) as -> by (apply N.eqb_neq; congruence).
    rewrite Hc.
    unfold Posix.push. change (default [] (Some ?x)) with x.
    rewrite IH by done.
    by rewrite <- app_assoc.
Qed.

Lemma plain_char_ordinary (c : N) :
  Posix.plain_char c = true ->
  (c =? 0x27) = false /\ (c =? 0x20) = false /\ (c =? 0x3C) = false
  /\ (c =? 0x3E) = false.
Proof.
  intros H. repeat split; apply N.eqb_neq; by intros ->.
Qed.

Lemma lex_plain (word rest : str) done (cur : option str) :
  forallb Posix.plain_char word = true -> word <> [] ->
  Posix.lex (word ++ rest) done cur false
  = Posix.lex rest done (Some (default [] cur ++ word)) false.
Proof.
  intros Hw%forallb_Forall. revert cur.
  induction Hw as [|c word Hc Hw IH]; intros cur Hne; [done|].
  cbn [app Posix.lex].
  destruct (plain_char_ordinary c Hc) as (-> & -> & -> & ->).
  cbn [orb]. rewrite Hc. unfold Posix.push.
  destruct word as [|d word]; [done|].
  rewrite IH by done.
  change (default [] (Some ?x)) with x. by rewrite <- app_assoc.
Qed.

Lemma host_word_inv (h : str) :
  Posix.host_word h = true ->
  h <> [] /\ forallb Posix.plain_char h = true.
Proof.
  unfold Posix.host_word.
  rewrite !andb_true_iff, !negb_true_iff, bool_decide_eq_false.
  by intros [[[[? _] _] ?] _].
Qed.

Section ShellFacts.
Implicit Types (w : Posix.world) (self : App Posix.world).

Lemma run_receive_cmd w (path : str) :
  Posix.canonical path = true -> 0x27 ∉ path ->
  Posix.run (receive_cmd w path) w
  = Posix.listen (receive_cmd w path) path w.
Proof.
  intros Hc Hq. pose proof (canonical_printable path Hc) as Hp.
  unfold Posix.run, receive_cmd, is_darwin.
  change (platform_system w) with (Posix.platform w).
  destruct (bool_decide (Posix.platform w = lit "Darwin")).
  - change (lit "nc -l " ++ port_str ++ lit " > '" ++ path ++ lit "'")
      with (lit "nc -l 12345 > '" ++ path ++ 0x27 :: []).
    change (Posix.lex (lit "nc -l 12345 > '" ++ ?t) [] None false)
      with (Posix.lex t
              [Posix.Word (lit "nc"); Posix.Word (lit "-l");
               Posix.Word (lit "12345"); Posix.Greater] (Some []) true).
    by rewrite lex_quoted.
  - change (lit "nc -l -p " ++ port_str ++ lit " > '" ++ path ++ lit "'")
      with (lit "nc -l -p 12345 > '" ++ path ++ 0x27 :: []).
    change (Posix.lex (lit "nc -l -p 12345 > '" ++ ?t) [] None false)
      with (Posix.lex t
              [Posix.Word (lit "nc"); Posix.Word (lit "-l");
               Posix.Word (lit "-p"); Posix.Word (lit "12345");
               Posix.Greater] (Some []) true).
    by rewrite lex_quoted.
Qed.

Lemma run_send_cmd w (host path : str) :
  Posix.host_word host = true ->
  Posix.canonical path = true -> 0x27 ∉ path ->
  Posix.run (send_cmd w host path) w
  = Posix.send (send_cmd w host path) host path w.
Proof.
  intros Hh Hc Hq. pose proof (canonical_printable path Hc) as Hp.
  destruct (host_word_inv host Hh) as [Hne Hplain].
  unfold Posix.run, send_cmd, is_darwin.
  change (platform_system w) with (Posix.platform w).
  destruct (bool_decide (Posix.platform w = lit "Darwin")).
  - change (lit "nc -N " ++ host ++ lit " " ++ port_str ++ lit " < '"
            ++ path ++ lit "'")
      with (lit "nc -N " ++ host ++ lit " 12345 < '" ++ path ++ 0x27 :: []).
    change (Posix.lex (lit "nc -N " ++ ?t) [] None false)
      with (Posix.lex t [Posix.Word (lit "nc"); Posix.Word (lit "-N")]
              None false).
    rewrite lex_plain by done. change (default [] None ++ host) with host.
    change (Posix.lex (lit " 12345 < '" ++ ?t) ?d (Some host) false)
      with (Posix.lex t
              (((d ++ [Posix.Word host]) ++ [Posix.Word (lit "12345")])
               ++ [Posix.Less]) (Some []) true).
    rewrite lex_quoted by done. cbn [Posix.lex app Posix.flush].
    cbn [Posix.interpret]. rewrite Hh.
    by rewrite bool_decide_eq_true_2 by done.
  - change (lit "nc -w 3 " ++ host ++ lit " " ++ port_str ++ lit " < '"
            ++ path ++ lit "'")
      with (lit "nc -w 3 " ++ host ++ lit " 12345 < '" ++ path ++ 0x27 :: []).
    change (Posix.lex (lit "nc -w 3 " ++ ?t) [] None false)
      with (Posix.lex t
              [Posix.Word (lit "nc"); Posix.Word (lit "-w");
               Posix.Word (lit "3")] None false).
    rewrite lex_plain by done. change (default [] None ++ host) with host.
    change (Posix.lex (lit " 12345 < '" ++ ?t) ?d (Some host) false)
      with (Posix.lex t
              (((d ++ [Posix.Word host]) ++ [Posix.Word (lit "12345")])
               ++ [Posix.Less]) (Some []) true).
    rewrite lex_quoted by done. cbn [Posix.lex app Posix.flush].
    cbn [Posix.interpret]. rewrite Hh.
    by rewrite bool_decide_eq_true_2 by done.
Qed.

End ShellFacts.
(** ** The name of the saved file *)

Lemma zpad_digits width n : forallb is_digit (zpad width n) = true.
Proof.
  revert n. induction width as [|width IH]; intros n; [done|].
  cbn [zpad]. rewrite forallb_app, IH. cbn [forallb].
  rewrite andb_true_r. apply is_digit_spec.
  assert (n mod 10 < 10) as Hd by (by apply N.mod_lt).
  revert Hd. generalize (n mod 10). intros. split; lia.
Qed.

Lemma zpad_length width n : length (zpad width n) = width.
Proof.
  revert n. induction width as [|width IH]; intros n; [done|].
  cbn [zpad]. rewrite length_app, IH. cbn. lia.
Qed.

Lemma received_filename_no_quote t : 0x27 ∉ received_filename t.
Proof.
  unfold received_filename, strftime. rewrite !not_elem_of_app.
  assert (0x27 ∉ lit "received_file_").
  { apply (bool_decide_eq_false_1 (0x27 ∈ lit "received_file_")).
    by vm_compute. }
  assert (0x27 ∉ lit "_").
  { apply (bool_decide_eq_false_1 (0x27 ∈ lit "_")). by vm_compute. }
  repeat split; try done; by apply digits_without, zpad_digits.
Qed.

Lemma save_path_no_quote folder t :
  0x27 ∉ folder -> 0x27 ∉ save_path_of folder t.
Proof.
  intros Hf. pose proof (received_filename_no_quote t) as Hn.
  unfold save_path_of, Py.path_join.
  repeat case_match; rewrite ?not_elem_of_app; repeat split; try done.
  apply (bool_decide_eq_false_1 (0x27 ∈ lit "/")). by vm_compute.
Qed.

Lemma received_filename_relative t :
  Py.startswith (lit "/") (received_filename t) = false.
Proof. reflexivity. Qed.

Lemma received_filename_no_slash t : 0x2F ∉ received_filename t.
Proof.
  unfold received_filename, strftime. rewrite !not_elem_of_app.
  assert (0x2F ∉ lit "received_file_").
  { apply (bool_decide_eq_false_1 (0x2F ∈ lit "received_file_")).
    by vm_compute. }
  assert (0x2F ∉ lit "_").
  { apply (bool_decide_eq_false_1 (0x2F ∈ lit "_")). by vm_compute. }
  repeat split; try done; by apply digits_without, zpad_digits.
Qed.

Lemma received_filename_length t : length (received_filename t) = 29%nat.
Proof.
  unfold received_filename, strftime. by rewrite !length_app, !zpad_length.
Qed.

Lemma digits_printable (s : str) :
  forallb is_digit s = true -> forallb Posix.printable s = true.
Proof.
  rewrite !forallb_forall. intros H c Hc.
  apply H, is_digit_spec in Hc. unfold Posix.printable.
  apply andb_true_iff. split; apply N.leb_le; lia.
Qed.

(** The name of the saved file is a component of a canonical path. *)
Lemma received_filename_component t :
  Posix.component (received_filename t) = true.
Proof.
  unfold Posix.component.
  rewrite received_filename_length.
  assert (forallb Posix.printable (received_filename t) = true) as ->.
  { unfold received_filename, strftime. rewrite !forallb_app.
    rewrite !(digits_printable (zpad _ _)) by apply zpad_digits. done. }
  rewrite !andb_true_r. apply negb_true_iff, bool_decide_eq_false.
  intros E. apply (f_equal length) in E.
  by rewrite received_filename_length in E.
Qed.

(** The path of the saved file, for a canonical save folder. *)
Lemma save_path_canonical (folder : str) t :
  Posix.canonical folder = true -> (length folder <= 993)%nat ->
  save_path_of folder t = folder ++ lit "/" ++ received_filename t
  /\ Posix.canonical (save_path_of folder t) = true
  /\ Posix.parent (save_path_of folder t) = folder.
Proof.
  intros Hc Hlen.
  assert (save_path_of folder t = folder ++ lit "/" ++ received_filename t)
    as ->.
  { unfold save_path_of, Py.path_join.
    rewrite received_filename_relative, canonical_no_trailing_slash by done.
    rewrite bool_decide_eq_false_2 by by apply canonical_not_nil. done. }
  split; [done|]. split; [|apply parent_app, received_filename_no_slash].
  destruct (canonical_inv folder Hc) as (_ & c & cs & E & Hcs).
  unfold Posix.canonical. apply andb_true_iff. split.
  - apply Nat.leb_le. rewrite !length_app, received_filename_length. cbn. lia.
  - change (lit "/" ++ received_filename t) with (0x2F :: received_filename t).
    rewrite split_app_last by apply received_filename_no_slash.
    rewrite E. cbn [app]. apply forallb_Forall.
    change (c :: cs ++ [received_filename t])
      with ((c :: cs) ++ [received_filename t]).
    apply Forall_app_2; [done|].
    constructor; [apply received_filename_component|constructor].
Qed.

(** ** The transfer on the model *)

Section TransferOnPosix.
Implicit Types (w : Posix.world) (self : App Posix.world).

Lemma receive_thread_posix self (expected_pin folder : str)
  (arrival : Posix.arrival) :
  Posix.inbound (os self) = Some arrival ->
  Posix.canonical folder = true -> (length folder <= 993)%nat ->
  0x27 ∉ folder ->
  let save_path := save_path_of folder (Posix.clock (os self)) in
  Posix.can_write save_path (os self) = true ->
  let self' := receive_thread expected_pin folder self in
  Posix.files (os self')
  = <[save_path := Posix.received arrival]> (Posix.files (os self))
  /\ Posix.dirs (os self') = Posix.dirs (os self)
  /\ dialogs self'
     = dialogs self
       ++ [match arrival with
           | Posix.Closes _ =>
               showinfo (lit "Success")
                 (lit "File received!" ++ nl ++ lit "Saved to: "
                  ++ save_path)
           | Posix.Stalls _ =>
               showerror (lit "Error") (lit "Transfer timed out")
           end].
Proof.
  intros Hin Hc Hlen Hq save_path Hw self'. subst self'.
  destruct (save_path_canonical folder (Posix.clock (os self)) Hc Hlen)
    as (_ & Hcan & _).
  unfold receive_thread. cbn [os log set_log_text].
  change (datetime_now (os self)) with (Posix.clock (os self)).
  fold save_path.
  change (subprocess_run ?c ?w) with (Posix.run c w).
  rewrite run_receive_cmd by (done || by apply save_path_no_quote).
  unfold Posix.listen. fold save_path in Hcan. rewrite Hcan, Hw, Hin.
  cbn [negb]. by destruct arrival.
Qed.

Lemma start_receiving_posix self (arrival : Posix.arrival) :
  Py.strip (expected_pin_entry self) <> [] ->
  Posix.inbound (os self) = Some arrival ->
  Posix.canonical (save_path_var self) = true ->
  (length (save_path_var self) <= 993)%nat ->
  0x27 ∉ save_path_var self ->
  let save_path := save_path_of (save_path_var self) (Posix.clock (os self)) in
  Posix.can_write save_path (os self) = true ->
  let self' := start_receiving self in
  Posix.files (os self')
  = <[save_path := Posix.received arrival]> (Posix.files (os self))
  /\ Posix.dirs (os self') = Posix.dirs (os self)
  /\ dialogs self'
     = dialogs self
       ++ [match arrival with
           | Posix.Closes _ =>
               showinfo (lit "Success")
                 (lit "File received!" ++ nl ++ lit "Saved to: "
                  ++ save_path)
           | Posix.Stalls _ =>
               showerror (lit "Error") (lit "Transfer timed out")
           end].
Proof.
  intros Hpin Hin Hc Hlen Hq save_path Hw self'. subst self'.
  unfold start_receiving.
  rewrite bool_decide_eq_false_2 by done.
  assert (os_path_exists (save_path_var self) (os self) = true) as ->.
  { change (os_path_exists ?p ?w) with (Posix.exists_ p w).
    unfold Posix.exists_. rewrite Hc.
    destruct (save_path_canonical (save_path_var self)
                (Posix.clock (os self)) Hc Hlen) as (_ & _ & Hpar).
    unfold Posix.can_write in Hw. fold save_path in Hpar.
    rewrite Hpar in Hw. unfold Posix.is_dir in Hw.
    rewrite (bool_decide_eq_false_2 (save_path_var self = []))
      in Hw by by apply canonical_not_nil.
    apply andb_true_iff in Hw as [[Hd _]%andb_true_iff _].
    cbn [orb] in Hd. rewrite Hd. apply orb_true_r. }
  by apply receive_thread_posix.
Qed.

Lemma send_file_posix self (content : bytes) :
  Posix.canonical (file_path_var self) = true ->
  Posix.files (os self) !! file_path_var self = Some content ->
  0x27 ∉ file_path_var self ->
  let receiver_ip := Py.strip (receiver_ip_entry self) in
  Posix.host_word receiver_ip = true ->
  receiver_ip ∈ Posix.accepting (os self) ->
  Posix.stalling (os self) !! receiver_ip = None ->
  Py.strip (receiver_pin_entry self) <> [] ->
  let self' := send_file self in
  Posix.tcp_out (os self')
  = Posix.tcp_out (os self)
    ++ [{| Posix.peer := receiver_ip; Posix.peer_port := 12345;
           Posix.carried := content; Posix.closed := true |}]
  /\ Posix.udp_out (os self') = Posix.udp_out (os self)
  /\ Posix.files (os self') = Posix.files (os self)
  /\ log_text self'
     = log_text self
       ++ [lit "Sending file to " ++ receiver_ip ++ lit "..." ++ nl;
           lit "File: " ++ Py.basename (file_path_var self) ++ nl;
           lit "File sent successfully!" ++ nl]
  /\ dialogs self'
     = dialogs self
       ++ [showinfo (lit "Success") (lit "File sent successfully!")].
Proof.
  intros Hc Hfile Hq receiver_ip Hword Hacc Hstall Hpin self'. subst self'.
  unfold send_file.
  rewrite (bool_decide_eq_false_2 (file_path_var self = _)).
  2:{ intros E. by rewrite E in Hc. }
  change (os_path_exists ?p ?w) with (Posix.exists_ p w).
  unfold Posix.exists_, Posix.is_file. rewrite Hc.
  rewrite (bool_decide_eq_true_2 (is_Some _)) by (by rewrite Hfile).
  cbn [orb negb]. fold receiver_ip.
  rewrite bool_decide_eq_false_2.
  2:{ intros E. by rewrite E in Hword. }
  rewrite bool_decide_eq_false_2 by done.
  unfold send_thread. cbn [os log set_log_text].
  change (subprocess_run ?c ?w) with (Posix.run c w).
  rewrite run_send_cmd by done.
  unfold Posix.send. rewrite Hc, Hfile, Hstall.
  rewrite bool_decide_eq_true_2 by done. cbn [negb].
  unfold Posix.exited. cbn [returncode Z.eqb].
  repeat split; try done.
  cbn [log_text messagebox set_dialogs log set_log_text set_os].
  by rewrite <- !app_assoc.
Qed.

End TransferOnPosix.
(** ** The transfer *)

Section TransferTheorems.
Context {World : Type} `{RT : Runtime World}.
Implicit Types (self : App World) (w : World).

Lemma receive_thread_ignores_pin (s1 s2 : App World) (pin1 pin2 folder : str) :
  os s1 = os s2 -> dialogs s1 = dialogs s2 ->
  discovered_peers s1 = discovered_peers s2 -> log_text s1 = log_text s2 ->
  let r1 := receive_thread pin1 folder s1 in
  let r2 := receive_thread pin2 folder s2 in
  os r1 = os r2 /\ dialogs r1 = dialogs r2
  /\ discovered_peers r1 = discovered_peers r2
  /\ exists before after,
      log_text r1 = before ++ [lit "Expected PIN: " ++ pin1 ++ nl] ++ after
      /\ log_text r2 = before ++ [lit "Expected PIN: " ++ pin2 ++ nl] ++ after.
Proof.
  intros Ho Hd Hp Hl. unfold receive_thread. cbn [os log set_log_text].
  rewrite <- Ho. destruct (subprocess_run _ (os s1)) as [[result|e] w'].
  - destruct (returncode result =? 0)%Z.
    all: cbn [os dialogs discovered_peers log_text messagebox set_dialogs log
              set_log_text set_os].
    all: rewrite <- ?Hd, <- ?Hp, <- ?Hl.
    all: repeat split; try reflexivity.
    all: eexists (log_text s1 ++ [_]), [_; _].
    all: split; rewrite <- !app_assoc; cbn [app]; reflexivity.
  - destruct e.
    all: cbn [os dialogs discovered_peers log_text messagebox set_dialogs log
              set_log_text set_os].
    all: rewrite <- ?Hd, <- ?Hp, <- ?Hl.
    all: repeat split; try reflexivity.
    all: eexists (log_text s1 ++ [_]), [_; _].
    all: split; rewrite <- !app_assoc; cbn [app]; reflexivity.
Qed.

(** C1, as amended.  A receive operation reads no header and compares the
    expected PIN with nothing: whatever arrives, what the operation does to
    the world, the message box it shows and the peer mapping are the same
    for any two expected PINs that are not blank; either the log is
    untouched, or the two logs differ in the one line [Expected PIN: ...]. *)
Theorem receive_ignores_expected_pin self (pin1 pin2 : str) :
  Py.strip pin1 <> [] -> Py.strip pin2 <> [] ->
  let r1 := start_receiving (perform (TypeExpectedPin pin1) self) in
  let r2 := start_receiving (perform (TypeExpectedPin pin2) self) in
  os r1 = os r2 /\ dialogs r1 = dialogs r2
  /\ discovered_peers r1 = discovered_peers r2
  /\ ((log_text r1 = log_text self /\ log_text r2 = log_text self)
      \/ exists before after,
          log_text r1
          = before ++ [lit "Expected PIN: " ++ Py.strip pin1 ++ nl] ++ after
          /\ log_text r2
             = before ++ [lit "Expected PIN: " ++ Py.strip pin2 ++ nl]
               ++ after).
Proof.
  intros H1 H2 r1 r2. subst r1 r2. unfold start_receiving.
  cbn [perform set_entries expected_pin_entry save_path_var os].
  rewrite !bool_decide_eq_false_2 by done.
  destruct (os_path_exists (save_path_var self) (os self)).
  - destruct (receive_thread_ignores_pin
                (perform (TypeExpectedPin pin1) self)
                (perform (TypeExpectedPin pin2) self) (Py.strip pin1)
                (Py.strip pin2) (save_path_var self))
      as (Ho & Hd & Hp & Hl); [done..|].
    repeat split; [exact Ho|exact Hd|exact Hp|right; exact Hl].
  - destruct (os_makedirs (save_path_var self) (os self)) as [[e|] w'].
    + repeat split; try reflexivity. by left.
    + destruct (receive_thread_ignores_pin
                  (set_os w' (perform (TypeExpectedPin pin1) self))
                  (set_os w' (perform (TypeExpectedPin pin2) self))
                  (Py.strip pin1) (Py.strip pin2) (save_path_var self))
        as (Ho & Hd & Hp & Hl); [done..|].
      repeat split; [exact Ho|exact Hd|exact Hp|right; exact Hl].
Qed.

End TransferTheorems.

Section TransferOnPosixTheorems.
Implicit Types (w : Posix.world) (self : App Posix.world).

(** C2, as amended.  The receiver keeps no count of bytes and knows no
    declared size.  On the model of the host: for every receive operation
    with an expected PIN that is not blank, into a save folder that is a
    directory at a canonical path of at most 993 characters without a
    single quote, in which the file [received_file_<timestamp>] can be
    created or rewritten, at a time the clock can show (from the year 1000
    on), and for every connection that a peer makes to the listening port,
    the file holds all the bytes that have come on the
    connection by the end of the command, of whatever number: the whole
    stream, with the success box, when the peer closes the connection within
    the 300 seconds; what has come so far, with the box [Transfer timed
    out], when the peer still holds the connection then. *)
Theorem receive_saves_whole_stream self (arrival : Posix.arrival) :
  Py.strip (expected_pin_entry self) <> [] ->
  Posix.inbound (os self) = Some arrival ->
  Posix.canonical (save_path_var self) = true ->
  (length (save_path_var self) <= 993)%nat ->
  0x27 ∉ save_path_var self ->
  valid_datetime (Posix.clock (os self)) ->
  let save_path := save_path_of (save_path_var self) (Posix.clock (os self)) in
  Posix.can_write save_path (os self) = true ->
  Posix.files (os (start_receiving self)) !! save_path
  = Some (Posix.received arrival)
  /\ dialogs (start_receiving self)
     = dialogs self
       ++ [match arrival with
           | Posix.Closes _ =>
               showinfo (lit "Success")
                 (lit "File received!" ++ nl ++ lit "Saved to: "
                  ++ save_path)
           | Posix.Stalls _ =>
               showerror (lit "Error") (lit "Transfer timed out")
           end].
Proof.
  intros Hpin Hin Hc Hlen Hq _ save_path Hw.
  destruct (start_receiving_posix self arrival) as (Hf & _ & Hd); [done..|].
  split; [|exact Hd]. rewrite Hf. apply lookup_insert_eq.
Qed.

(** C3, as amended.  On the model of the host: for every send operation on
    a file that is there to be read at a canonical path without a single
    quote, to a receiver address that is a host word, accepts the
    connection and takes the data in time, with a receiver PIN that is not
    blank, [send_file] makes exactly one connection, to port 12345 of the
    receiver; the connection carries the bytes of the file and nothing else
    (no header, no PIN, no name, no size) and is closed on the side of the
    sender when the command ends.  No datagram is sent and no file is
    changed.  The base name of the file goes to the log and nowhere else:
    the operation writes the three lines [Sending file to ...], [File:
    <base name>] and [File sent successfully!], and shows the success
    box. *)
Theorem send_streams_file_only self (content : bytes) :
  Posix.canonical (file_path_var self) = true ->
  Posix.files (os self) !! file_path_var self = Some content ->
  0x27 ∉ file_path_var self ->
  let receiver_ip := Py.strip (receiver_ip_entry self) in
  Posix.host_word receiver_ip = true ->
  receiver_ip ∈ Posix.accepting (os self) ->
  Posix.stalling (os self) !! receiver_ip = None ->
  Py.strip (receiver_pin_entry self) <> [] ->
  Posix.tcp_out (os (send_file self))
  = Posix.tcp_out (os self)
    ++ [{| Posix.peer := receiver_ip; Posix.peer_port := 12345;
           Posix.carried := content; Posix.closed := true |}]
  /\ Posix.udp_out (os (send_file self)) = Posix.udp_out (os self)
  /\ Posix.files (os (send_file self)) = Posix.files (os self)
  /\ log_text (send_file self)
     = log_text self
       ++ [lit "Sending file to " ++ receiver_ip ++ lit "..." ++ nl;
           lit "File: " ++ Py.basename (file_path_var self) ++ nl;
           lit "File sent successfully!" ++ nl]
  /\ dialogs (send_file self)
     = dialogs self
       ++ [showinfo (lit "Success") (lit "File sent successfully!")].
Proof.
  intros Hc Hfile Hq receiver_ip Hword Hacc Hstall Hpin.
  by apply send_file_posix.
Qed.

(** X24. The round trip on the model of the host, where the paths are
    canonical and without a single quote and the clock of the receiver
    shows a valid time: what the connection of the sender carries, received
    through a connection that the peer closes in time, is saved as the bytes
    of the file, and the receiver shows the success box. *)
Lemma transfer_round_trip (sender receiver : App Posix.world)
  (content : bytes) :
  Posix.canonical (file_path_var sender) = true ->
  Posix.files (os sender) !! file_path_var sender = Some content ->
  0x27 ∉ file_path_var sender ->
  let receiver_ip := Py.strip (receiver_ip_entry sender) in
  Posix.host_word receiver_ip = true ->
  receiver_ip ∈ Posix.accepting (os sender) ->
  Posix.stalling (os sender) !! receiver_ip = None ->
  Py.strip (receiver_pin_entry sender) <> [] ->
  Py.strip (expected_pin_entry receiver) <> [] ->
  Posix.canonical (save_path_var receiver) = true ->
  (length (save_path_var receiver) <= 993)%nat ->
  0x27 ∉ save_path_var receiver ->
  valid_datetime (Posix.clock (os receiver)) ->
  let save_path :=
    save_path_of (save_path_var receiver) (Posix.clock (os receiver)) in
  Posix.can_write save_path (os receiver) = true ->
  let sent := Scenario.last_connection (send_file sender) in
  let received :=
    start_receiving (Scenario.connect sent receiver) in
  Posix.files (os received) !! save_path = Some content
  /\ dialogs received
     = dialogs receiver
       ++ [showinfo (lit "Success")
             (lit "File received!" ++ nl ++ lit "Saved to: " ++ save_path)].
Proof.
  intros Hc Hfile Hq receiver_ip Hword Hacc Hstall Hpin Hexp Hsc Hlen Hsq _
    save_path Hw sent received.
  destruct (send_file_posix sender content) as (Ht & _); [done..|].
  assert (sent = content) as ->.
  { unfold sent, Scenario.last_connection. by rewrite Ht, last_snoc. }
  destruct (start_receiving_posix (Scenario.connect content receiver)
              (Posix.Closes content)) as (Hf & _ & Hd); [done..|].
  split; [|exact Hd].
  unfold received. rewrite Hf. apply lookup_insert_eq.
Qed.

(** What one broadcast leaves on the network of the model. *)
Lemma broadcast_discovery_posix self :
  is_ipv4 (local_ip self) = true ->
  is_pin (pin_code self) = true ->
  Posix.broadcast_permitted (os self) = true ->
  Posix.udp_out (os (broadcast_discovery self))
  = Posix.udp_out (os self)
    ++ [(Utf8.byte_of <$> discovery_message (local_ip self) (pin_code self),
         (broadcast_ip_of (local_ip self), discovery_port))].
Proof.
  intros Hip Hpin Hperm. unfold broadcast_discovery.
  change (socket_broadcast ?w) with (Posix.open_broadcast w).
  unfold Posix.open_broadcast. rewrite Hperm.
  cbn [local_ip pin_code set_os os].
  destruct (discovery_payload (local_ip self) (pin_code self)) as [Henc _];
    [done..|].
  unfold str_encode. rewrite Henc.
  change (socket_sendto ?p ?a ?w) with (Posix.sendto p a w).
  unfold Posix.sendto. cbn [fst]. rewrite broadcast_ip_of_ipv4 by done.
  done.
Qed.

End TransferOnPosixTheorems.

(** C8. For every two broadcasts of a host, with whatever PINs it holds at
    the one and at the other, each broadcast puts exactly one datagram on
    the network, and a running listener that receives the one and then the
    other ends with the address of the host mapped to the PIN of the
    later. *)
Theorem later_broadcast_wins {World : Type} `{RT : Runtime World}
  (earlier later : App Posix.world) (listener : App World) :
  is_ipv4 (local_ip earlier) = true ->
  local_ip later = local_ip earlier ->
  is_pin (pin_code earlier) = true ->
  is_pin (pin_code later) = true ->
  Posix.broadcast_permitted (os earlier) = true ->
  Posix.broadcast_permitted (os later) = true ->
  discovery_running listener = true ->
  exists d1 d2 dest,
    Posix.udp_out (os (broadcast_discovery earlier))
    = Posix.udp_out (os earlier) ++ [(d1, dest)]
    /\ Posix.udp_out (os (broadcast_discovery later))
       = Posix.udp_out (os later) ++ [(d2, dest)]
    /\ discovered_peers
         (discovery_loop [Datagram d1; Datagram d2] listener)
       !! local_ip earlier
       = Some (pin_code later).
Proof.
  intros Hip Hsame Hp1 Hp2 Hb1 Hb2 Hrun.
  eexists _, _, _. split; [by apply broadcast_discovery_posix|].
  split.
  { rewrite broadcast_discovery_posix by (by rewrite ?Hsame).
    by rewrite Hsame. }
  cbn [discovery_loop]. rewrite Hrun.
  rewrite discovery_iteration_broadcast by done.
  cbn [record_peer log set_log_text set_discovered_peers discovery_running].
  rewrite Hrun. rewrite discovery_iteration_broadcast by done.
  cbn [record_peer log set_log_text set_discovered_peers discovered_peers].
  apply lookup_insert_eq.
Qed.

(** ** What the two operations ask of the runtime, whatever it is *)

Section OneCommand.
Context {World : Type} `{RT : Runtime World}.
Implicit Types (self : App World).

(** The sender runs one command, in which no PIN occurs. *)
Lemma send_thread_runs_one_command self (file_path receiver_ip : str) :
  os (send_thread file_path receiver_ip self)
  = (subprocess_run (send_cmd (os self) receiver_ip file_path) (os self)).2.
Proof.
  unfold send_thread. cbn [os log set_log_text].
  destruct (subprocess_run _ (os self)) as [[result|e] w']; cbn [snd].
  - by destruct (returncode result =? 0)%Z.
  - by destruct e.
Qed.

(** The receiver runs one command, in which no PIN occurs. *)
Lemma receive_thread_runs_one_command self (expected_pin folder : str) :
  os (receive_thread expected_pin folder self)
  = (subprocess_run
       (receive_cmd (os self)
          (save_path_of folder (datetime_now (os self))))
       (os self)).2.
Proof.
  unfold receive_thread. cbn [os log set_log_text].
  destruct (subprocess_run _ (os self)) as [[result|e] w']; cbn [snd].
  - by destruct (returncode result =? 0)%Z.
  - by destruct e.
Qed.

(** The receiver reports success exactly on the exit status 0. *)
Lemma receive_thread_reports_by_status self (expected_pin folder : str)
  (result : CompletedProcess) (w' : World) :
  subprocess_run
    (receive_cmd (os self) (save_path_of folder (datetime_now (os self))))
    (os self) = (Ok result, w') ->
  dialogs (receive_thread expected_pin folder self)
  = dialogs self
    ++ [if (returncode result =? 0)%Z
        then showinfo (lit "Success")
               (lit "File received!" ++ nl ++ lit "Saved to: "
                ++ save_path_of folder (datetime_now (os self)))
        else showerror (lit "Error")
               (lit "Failed to receive file:" ++ nl ++ error_msg_of result)].
Proof.
  intros Hrun. unfold receive_thread. cbn [os log set_log_text].
  rewrite Hrun. by destruct (returncode result =? 0)%Z.
Qed.

End OneCommand.

(** ** The path of the saved file *)

(** X22. The saved file lies under the save folder, and its path is
    absolute when the folder is. *)
Lemma save_path_under_folder folder t :
  Py.startswith folder (save_path_of folder t) = true
  /\ (Py.isabs folder = true -> Py.isabs (save_path_of folder t) = true).
Proof.
  unfold save_path_of, Py.path_join. rewrite received_filename_relative.
  split.
  - case_match; apply startswith_app.
  - unfold Py.isabs. intros (r & ->)%startswith_inv.
    case_match; rewrite <- app_assoc; apply startswith_app.
Qed.

Lemma zpad_inj width a b :
  a < 10 ^ N.of_nat width -> b < 10 ^ N.of_nat width ->
  zpad width a = zpad width b -> a = b.
Proof.
  revert a b. induction width as [|width IH]; intros a b Ha Hb E.
  - cbn in Ha, Hb. lia.
  - cbn [zpad] in E.
    apply app_inj_2 in E as [E1 E2]; [|done].
    rewrite Nat2N.inj_succ, N.pow_succ_r' in Ha, Hb.
    assert (a / 10 = b / 10) as Hq.
    { apply IH; [apply N.Div0.div_lt_upper_bound; lia..|done]. }
    assert (a mod 10 = b mod 10) as Hr by (injection E2; lia).
    rewrite (N.div_mod a 10), (N.div_mod b 10) by done. by rewrite Hq, Hr.
Qed.

(** Two valid times with the same stamp are the same time. *)
Lemma strftime_inj t1 t2 :
  valid_datetime t1 -> valid_datetime t2 ->
  strftime t1 = strftime t2 -> t1 = t2.
Proof.
  destruct t1 as [y1 m1 d1 H1 M1 S1], t2 as [y2 m2 d2 H2 M2 S2].
  unfold valid_datetime, strftime. cbn [year month day hour minute second].
  intros (Hy1 & Hm1 & Hd1 & HH1 & HM1 & HS1)
         (Hy2 & Hm2 & Hd2 & HH2 & HM2 & HS2) E.
  repeat match type of E with
         | zpad _ _ ++ _ = zpad _ _ ++ _ =>
             let E1 := fresh "E" in
             apply app_inj_1 in E as [E1 E]; [|by rewrite !zpad_length];
             apply zpad_inj in E1; [|cbn; lia..]
         | lit "_" ++ _ = lit "_" ++ _ => apply app_inv_head in E
         end.
  apply zpad_inj in E; [|cbn; lia..]. by subst.
Qed.

(** X23. Receive operations into one folder at valid times of different
    stamps save to different files. *)
Lemma save_path_of_inj folder t1 t2 :
  valid_datetime t1 -> valid_datetime t2 ->
  save_path_of folder t1 = save_path_of folder t2 -> t1 = t2.
Proof.
  intros V1 V2. unfold save_path_of, Py.path_join.
  rewrite !received_filename_relative. intros E.
  apply strftime_inj; [done..|].
  assert (received_filename t1 = received_filename t2) as E'.
  { destruct (_ || _); apply (app_inv_head folder) in E; [done|].
    by apply (app_inv_head (lit "/")) in E. }
  unfold received_filename in E'. by apply app_inv_head in E'.
Qed.

(** Closed goals over the two hosts are settled by evaluation. *)
Ltac by_computation :=
  first [ apply (bool_decide_eq_false_1 _); vm_compute; reflexivity
        | apply (bool_decide_eq_true_1 _); vm_compute; reflexivity
        | vm_compute; first [reflexivity | discriminate] ].

Section Scenarios.
Import Scenario.

(** C1, the counterexample.  The receiver expects the PIN 222222; the
    connection opens with a header that carries the PIN 111111.  The
    operation shows no error but the success box, and the file, which was
    not there, holds all that came, header included. *)
Lemma receive_accepts_wrong_pin :
  let header :=
    {| Spec.pin := lit "111111"; Spec.filename := lit "a.txt";
       Spec.size := 2 |} in
  let stream := Spec.serialize header ++ text "hi" in
  let before := connect stream (bob_listening (lit "222222")) in
  let after := start_receiving before in
  Spec.pin header <> Py.strip (expected_pin_entry before)
  /\ dialogs after
     = [showinfo (lit "Success")
          (lit "File received!" ++ nl ++ lit "Saved to: " ++ saved_path)]
  /\ Posix.files (os before) !! saved_path = None
  /\ Posix.files (os after) !! saved_path = Some stream.
Proof. repeat apply conj; by_computation. Qed.

(** C2, the counterexample.  The header declares two bytes and three
    follow before the connection closes.  The operation reports success, and
    the file holds the twenty-six bytes that came: the reader did not stop
    at the declared size, and the surplus raised no error. *)
Lemma receive_takes_more_than_declared :
  let header :=
    {| Spec.pin := lit "222222"; Spec.filename := lit "a.txt";
       Spec.size := 2 |} in
  let payload := text "abc" in
  let stream := Spec.serialize header ++ payload in
  let after := start_receiving (connect stream (bob_listening (lit "222222"))) in
  (Spec.size header < N.of_nat (length payload))
  /\ dialogs after
     = [showinfo (lit "Success")
          (lit "File received!" ++ nl ++ lit "Saved to: " ++ saved_path)]
  /\ Posix.files (os after) !! saved_path = Some stream
  /\ length stream = 26%nat.
Proof. repeat apply conj; by_computation. Qed.

(** C3, the counterexample.  The sender sends [report.pdf] with the PIN
    482913 typed in.  Its one connection carries the eight bytes of the
    file: not the header of the PIN, the base name and the size followed by
    the file. *)
Lemma send_writes_no_header :
  let before := alice_sending (lit "/home/alice/report.pdf") (lit "482913") in
  let header :=
    {| Spec.pin := lit "482913"; Spec.filename := lit "report.pdf";
       Spec.size := 8 |} in
  Posix.tcp_out (os (send_file before))
  = [{| Posix.peer := lit "192.168.1.8"; Posix.peer_port := 12345;
        Posix.carried := text "%PDF-1.7"; Posix.closed := true |}]
  /\ Py.basename (file_path_var before) = Spec.filename header
  /\ Posix.files (os before) !! file_path_var before = Some (text "%PDF-1.7")
  /\ last_connection (send_file before)
     <> Spec.serialize header ++ text "%PDF-1.7".
Proof. repeat apply conj; by_computation. Qed.

(** C4, the failing input.  The file [/home/alice/it's.txt] exists and the
    receiver accepts; the command line handed to the shell leaves a quote
    open, nothing is sent, and the operation ends in the error box. *)
Lemma quote_in_path_breaks_send :
  let before := alice_sending (lit "/home/alice/it's.txt") (lit "482913") in
  Posix.files (os before) !! file_path_var before = Some (text "hi")
  /\ send_cmd (os before) (lit "192.168.1.8") (file_path_var before)
     = lit "nc -w 3 192.168.1.8 12345 < '/home/alice/it's.txt'"
  /\ Posix.tcp_out (os (send_file before)) = []
  /\ dialogs (send_file before)
     = [showerror (lit "Error")
          (lit "Failed to send file:" ++ nl ++ lit "sh: syntax error")].
Proof. repeat apply conj; by_computation. Qed.

(** C5, the failing input.  Two peers connect one after the other within
    the second 12:00:00, and the receiver runs a receive operation for each.
    Both operations report success with the same path; after the second the
    file holds the second payload, and the first is gone. *)
Lemma same_second_receives_collide :
  let listening := bob_listening (lit "222222") in
  let once := start_receiving (connect (text "first") listening) in
  let twice := start_receiving (connect (text "second") once) in
  datetime_now (os once) = datetime_now (os listening)
  /\ Posix.files (os once) !! saved_path = Some (text "first")
  /\ Posix.files (os twice) !! saved_path = Some (text "second")
  /\ dialogs twice
     = [showinfo (lit "Success")
          (lit "File received!" ++ nl ++ lit "Saved to: " ++ saved_path);
        showinfo (lit "Success")
          (lit "File received!" ++ nl ++ lit "Saved to: " ++ saved_path)].
Proof. repeat apply conj; by_computation. Qed.

(** With a second between them, the two receive operations save to two
    files. *)
Lemma next_second_receives_apart :
  let listening := bob_listening (lit "222222") in
  let once := start_receiving (connect (text "first") listening) in
  let twice :=
    start_receiving (connect (text "second") (wait a_second_later once)) in
  Posix.files (os twice) !! saved_path = Some (text "first")
  /\ Posix.files (os twice) !! lit "/tmp/out/received_file_20240517_120001"
     = Some (text "second").
Proof. repeat apply conj; by_computation. Qed.

(** A save folder below a regular file cannot be created, and a save
    folder that is a regular file takes no file: the receiver shows an error
    box and nothing is written. *)
Lemma receive_below_a_file_fails :
  let typed := perform (TypeExpectedPin (lit "222222")) alice in
  let below :=
    start_receiving
      (connect (text "hi")
         (perform (ChooseSaveFolder (lit "/home/alice/report.pdf/sub"))
            typed)) in
  let into :=
    start_receiving
      (connect (text "hi")
         (perform (ChooseSaveFolder (lit "/home/alice/report.pdf")) typed)) in
  dialogs below
  = [showerror (lit "Error")
       (lit "Cannot create save folder:" ++ nl
        ++ lit "[Errno 20] Not a directory")]
  /\ dialogs into
     = [showerror (lit "Error")
          (lit "Failed to receive file:" ++ nl
           ++ lit "sh: cannot create file")]
  /\ Posix.files (os below) = Posix.files (os alice)
  /\ Posix.files (os into) = Posix.files (os alice).
Proof. repeat apply conj; by_computation. Qed.

(** A peer that holds the connection, and a receiver that stops taking the
    data: the transfer times out, and what has come is what is there. *)
Lemma stalled_transfers_time_out :
  let receiving :=
    start_receiving (connect_and_hold (text "fir") (bob_listening (lit "1"))) in
  let sending :=
    send_file
      (perform (TypeReceiverIp (lit "192.168.1.9"))
         (alice_sending (lit "/home/alice/report.pdf") (lit "482913"))) in
  dialogs receiving = [showerror (lit "Error") (lit "Transfer timed out")]
  /\ Posix.files (os receiving) !! saved_path = Some (text "fir")
  /\ dialogs sending = [showerror (lit "Error") (lit "Transfer timed out")]
  /\ Posix.tcp_out (os sending)
     = [{| Posix.peer := lit "192.168.1.9"; Posix.peer_port := 12345;
           Posix.carried := text "%PD"; Posix.closed := false |}].
Proof. repeat apply conj; by_computation. Qed.

(** A path with two quotes is another path to the shell: the file sent is
    not the file chosen. *)
Lemma balanced_quotes_name_another_file :
  let chosen := lit "/home/alice/a'b'c" in
  let host :=
    Posix.set_files
      (<[chosen := text "chosen"]>
         (<[lit "/home/alice/abc" := text "other"]>
            (Posix.files alice_host))) None alice_host in
  let before :=
    perform (TypeReceiverPin (lit "482913"))
      (perform (TypeReceiverIp (lit "192.168.1.8"))
         (perform (ChooseFile chosen)
            (init (lit "192.168.1.7") (lit "/home/alice") host))) in
  last_connection (send_file before) = text "other".
Proof. by_computation. Qed.

(** C6, the counterexample.  A datagram of the one byte FF is no UTF-8; the
    running listener writes a line of error to the log. *)
Lemma undecodable_datagram_is_logged :
  let after := discovery_iteration (Datagram ["255"%byte]) bob in
  Utf8.decode (recvfrom 1024 ["255"%byte]) = None
  /\ discovery_running bob = true
  /\ after <> bob
  /\ log_text after
     = log_text bob
       ++ [lit "Discovery error: "
           ++ str_of_exn (UnicodeDecodeError ["255"%byte]) ++ nl].
Proof. repeat apply conj; by_computation. Qed.

End Scenarios.

(** ** The theorems at work on the two hosts *)

Section Witnesses.
Import Scenario.

(** C10 on the sender's host, after a click on [New PIN]. *)
Lemma pin_is_six_digits_witness :
  reachable (perform ClickNewPin alice)
  /\ is_pin (pin_code (perform ClickNewPin alice)) = true.
Proof.
  assert (reachable (perform ClickNewPin alice)) as Hr
    by apply reach_step, reach_init.
  split; [exact Hr|]. exact (pin_is_six_digits _ Hr).
Defined.

(** C7 on the sender's host. *)
Lemma broadcast_sends_one_datagram_witness :
  (is_ipv4 (local_ip alice) = true
   /\ Utf8.encode
        (lit "DISCOVERY:" ++ local_ip alice ++ lit ":" ++ pin_code alice)
      = Some (text "DISCOVERY:192.168.1.7:509181"))
  /\ Posix.udp_out (os (broadcast_discovery alice))
     = [(text "DISCOVERY:192.168.1.7:509181", (lit "192.168.1.255", 12346))].
Proof.
  assert (is_ipv4 (local_ip alice) = true) as Hip by by_computation.
  assert (Utf8.encode
            (lit "DISCOVERY:" ++ local_ip alice ++ lit ":" ++ pin_code alice)
          = Some (text "DISCOVERY:192.168.1.7:509181")) as Henc
    by by_computation.
  refine (conj (conj Hip Henc) _).
  destruct (broadcast_sends_one_datagram alice _ Hip Henc) as [Hos _];
    [by_computation..|].
  rewrite Hos. by_computation.
Defined.

(** C9: the sender's datagram, at the receiver. *)
Lemma broadcast_datagram_parses_back_witness :
  (is_ipv4 (local_ip alice) = true
   /\ pin_code alice = (generate_pin alice_host).1)
  /\ Posix.udp_out (os (broadcast_discovery alice))
     = [(text "DISCOVERY:192.168.1.7:509181", (lit "192.168.1.255", 12346))]
  /\ discovered_peers
       (discovery_iteration
          (Datagram (text "DISCOVERY:192.168.1.7:509181")) bob)
     = <[lit "192.168.1.7" := lit "509181"]> (discovered_peers bob).
Proof.
  assert (is_ipv4 (local_ip alice) = true) as Hip by by_computation.
  assert (pin_code alice = (generate_pin alice_host).1) as Hpin
    by by_computation.
  refine (conj (conj Hip Hpin) _).
  destruct (broadcast_datagram_parses_back alice bob alice_host Hip Hpin)
    as (payload & message & Henc & Hsent & _ & _ & _ & _ & Hpeers).
  assert (payload = text "DISCOVERY:192.168.1.7:509181") as ->.
  { assert (str_encode (discovery_message (local_ip alice) (pin_code alice))
            = Ok (text "DISCOVERY:192.168.1.7:509181")) as E
      by by_computation.
    rewrite E in Henc. by injection Henc. }
  cbn zeta in Hsent.
  assert ((socket_broadcast (os alice)).1 = None) as Hopen by by_computation.
  assert ((socket_sendto (text "DISCOVERY:192.168.1.7:509181")
             (broadcast_ip_of (local_ip alice), discovery_port)
             (socket_broadcast (os alice)).2).1 = None) as Hgone
    by by_computation.
  rewrite (Hsent Hopen Hgone), Hpeers. apply conj; by_computation.
Defined.

(** C8: the sender broadcasts, takes a new PIN and broadcasts again. *)
Lemma later_broadcast_wins_witness :
  let again := refresh_pin (broadcast_discovery alice) in
  (is_ipv4 (local_ip alice) = true /\ local_ip again = local_ip alice
   /\ is_pin (pin_code alice) = true /\ is_pin (pin_code again) = true
   /\ Posix.broadcast_permitted (os alice) = true
   /\ Posix.broadcast_permitted (os again) = true
   /\ discovery_running bob = true)
  /\ exists d1 d2 dest,
      Posix.udp_out (os (broadcast_discovery alice))
      = Posix.udp_out (os alice) ++ [(d1, dest)]
      /\ Posix.udp_out (os (broadcast_discovery again))
         = Posix.udp_out (os again) ++ [(d2, dest)]
      /\ discovered_peers (discovery_loop [Datagram d1; Datagram d2] bob)
         !! local_ip alice
         = Some (pin_code again).
Proof.
  intros again.
  assert (is_ipv4 (local_ip alice) = true) as H1 by by_computation.
  assert (local_ip again = local_ip alice) as H2 by by_computation.
  assert (is_pin (pin_code alice) = true) as H3 by by_computation.
  assert (is_pin (pin_code again) = true) as H4 by by_computation.
  assert (Posix.broadcast_permitted (os alice) = true) as H5
    by by_computation.
  assert (Posix.broadcast_permitted (os again) = true) as H6
    by by_computation.
  assert (discovery_running bob = true) as H7 by by_computation.
  refine (conj (conj H1 (conj H2 (conj H3 (conj H4 (conj H5 (conj H6 H7))))))
            _).
  exact (later_broadcast_wins alice again bob H1 H2 H3 H4 H5 H6 H7).
Defined.

(** C1: the receiver, expecting one PIN or another. *)
Lemma receive_ignores_expected_pin_witness :
  Py.strip (lit "111111") <> [] /\ Py.strip (lit " 222222") <> []
  /\ os (start_receiving
           (perform (TypeExpectedPin (lit "111111"))
              (connect (text "hi") (bob_listening []))))
     = os (start_receiving
             (perform (TypeExpectedPin (lit " 222222"))
                (connect (text "hi") (bob_listening [])))).
Proof.
  assert (Py.strip (lit "111111") <> []) as H1 by by_computation.
  assert (Py.strip (lit " 222222") <> []) as H2 by by_computation.
  split; [exact H1|]. split; [exact H2|].
  exact (proj1 (receive_ignores_expected_pin
                  (connect (text "hi") (bob_listening [])) _ _ H1 H2)).
Defined.

(** C2: a stream of five bytes reaches the receiver. *)
Lemma receive_saves_whole_stream_witness :
  let before := connect (text "hello") (bob_listening (lit "1")) in
  (Py.strip (expected_pin_entry before) <> []
   /\ Posix.inbound (os before) = Some (Posix.Closes (text "hello"))
   /\ Posix.canonical (save_path_var before) = true
   /\ (length (save_path_var before) <= 993)%nat
   /\ (0x27 ∉ save_path_var before)
   /\ valid_datetime (Posix.clock (os before))
   /\ Posix.can_write
        (save_path_of (save_path_var before) (Posix.clock (os before)))
        (os before) = true)
  /\ Posix.files (os (start_receiving before)) !! saved_path
     = Some (text "hello").
Proof.
  intros before.
  assert (Py.strip (expected_pin_entry before) <> []) as H1
    by by_computation.
  assert (Posix.inbound (os before) = Some (Posix.Closes (text "hello")))
    as H2 by by_computation.
  assert (Posix.canonical (save_path_var before) = true) as H3
    by by_computation.
  assert (length (save_path_var before) <= 993)%nat as H4 by (cbn; lia).
  assert (0x27 ∉ save_path_var before) as H5 by by_computation.
  assert (valid_datetime (Posix.clock (os before))) as Ht
    by (unfold valid_datetime; cbn; lia).
  assert (Posix.can_write
            (save_path_of (save_path_var before) (Posix.clock (os before)))
            (os before) = true) as H6 by by_computation.
  refine (conj (conj H1 (conj H2 (conj H3 (conj H4 (conj H5 (conj Ht H6))))))
            _).
  exact (proj1 (receive_saves_whole_stream before _ H1 H2 H3 H4 H5 Ht H6)).
Defined.

(** C3: the sender sends its report. *)
Lemma send_streams_file_only_witness :
  let before := alice_sending (lit "/home/alice/report.pdf") (lit "482913") in
  (Posix.canonical (file_path_var before) = true
   /\ Posix.files (os before) !! file_path_var before
      = Some (text "%PDF-1.7")
   /\ (0x27 ∉ file_path_var before)
   /\ Posix.host_word (Py.strip (receiver_ip_entry before)) = true
   /\ (Py.strip (receiver_ip_entry before) ∈ Posix.accepting (os before))
   /\ Posix.stalling (os before) !! Py.strip (receiver_ip_entry before)
      = None
   /\ Py.strip (receiver_pin_entry before) <> [])
  /\ Posix.tcp_out (os (send_file before))
     = Posix.tcp_out (os before)
       ++ [{| Posix.peer := Py.strip (receiver_ip_entry before);
              Posix.peer_port := 12345; Posix.carried := text "%PDF-1.7";
              Posix.closed := true |}].
Proof.
  intros before.
  assert (Posix.canonical (file_path_var before) = true) as H1
    by by_computation.
  assert (Posix.files (os before) !! file_path_var before
          = Some (text "%PDF-1.7")) as H2 by by_computation.
  assert (0x27 ∉ file_path_var before) as H3 by by_computation.
  assert (Posix.host_word (Py.strip (receiver_ip_entry before)) = true)
    as H4 by by_computation.
  assert (Py.strip (receiver_ip_entry before) ∈ Posix.accepting (os before))
    as H5 by by_computation.
  assert (Posix.stalling (os before) !! Py.strip (receiver_ip_entry before)
          = None) as H6 by by_computation.
  assert (Py.strip (receiver_pin_entry before) <> []) as H7
    by by_computation.
  refine (conj (conj H1 (conj H2 (conj H3 (conj H4 (conj H5 (conj H6 H7))))))
            _).
  exact (proj1 (send_streams_file_only before (text "%PDF-1.7")
                  H1 H2 H3 H4 H5 H6 H7)).
Defined.

End Witnesses.

(** * Further properties of the application *)

(** ** Invariants of the application *)

Section Invariants.
Context {World : Type} `{RT : Runtime World}.
Implicit Types (self : App World) (a : action).

(** Every method, by cases. *)
Ltac by_cases_of_the_methods :=
  unfold select_file, select_save_folder, refresh_pin, broadcast_discovery,
    broadcast_failed, send_file, send_thread, start_receiving, receive_thread,
    discovery_iteration, handle_discovery;
  repeat case_match; simplify_eq; try done.

Lemma perform_discovery_running a self :
  discovery_running (perform a self) = discovery_running self.
Proof. destruct a; cbn [perform]; by_cases_of_the_methods. Qed.

Lemma perform_pin_label a self :
  pin_label self = pin_code self ->
  pin_label (perform a self) = pin_code (perform a self).
Proof. destruct a; cbn [perform]; by_cases_of_the_methods. Qed.

(** X1. The address found at start is never looked up again: no operation
    changes [local_ip]. *)
Theorem local_ip_is_never_refreshed a self :
  local_ip (perform a self) = local_ip self.
Proof. destruct a; cbn [perform]; by_cases_of_the_methods. Qed.

(** X2. The discovery listener cannot be stopped: in every state the
    application reaches, [discovery_running] is still true. *)
Theorem discovery_never_stops self :
  reachable self -> discovery_running self = true.
Proof.
  induction 1 as [ip home w|a self _ IH].
  - unfold init. by destruct (generate_pin w).
  - by rewrite perform_discovery_running.
Qed.

(** X3. The label shows the PIN in force: in every state the application
    reaches, the text of [pin_label] is [pin_code]. *)
Theorem pin_label_shows_pin_code self :
  reachable self -> pin_label self = pin_code self.
Proof.
  induction 1 as [ip home w|a self _ IH].
  - unfold init. by destruct (generate_pin w).
  - by apply perform_pin_label.
Qed.

(** X4. The log and the record of the message boxes only grow: whatever
    the operation, what was there before stays, in place, and what is new
    comes after it. *)
Theorem traces_only_grow a self :
  log_text self `prefix_of` log_text (perform a self)
  /\ dialogs self `prefix_of` dialogs (perform a self).
Proof.
  destruct a; cbn [perform]; by_cases_of_the_methods.
  all: cbn [log_text dialogs log set_log_text messagebox set_dialogs set_os
            set_pin set_vars set_entries set_discovered_peers].
  all: split; repeat apply prefix_app_r; done.
Qed.

End Invariants.

(** ** More about the discovery listener *)

Section Listener.
Context {World : Type} `{RT : Runtime World}.
Implicit Types (self : App World) (ev : recv_event).

(** What one event does to the peer mapping does not depend on the state:
    nothing, or one upsert. *)
Lemma discovery_iteration_peers ev :
  exists upsert : option (str * str),
    forall self,
      discovered_peers (discovery_iteration ev self)
      = match upsert with
        | Some (ip, pin) => <[ip := pin]> (discovered_peers self)
        | None => discovered_peers self
        end.
Proof.
  destruct ev as [payload|e].
  - unfold discovery_iteration, handle_discovery, bytes_decode.
    destruct (Utf8.decode (recvfrom 1024 payload)) as [message|].
    + destruct (Py.startswith (lit "DISCOVERY:") message).
      * destruct (3 <=? length (Py.split 58 message))%nat.
        -- by exists (Some (nth 1 (Py.split 58 message) [],
                            nth 2 (Py.split 58 message) [])).
        -- by exists None.
      * by exists None.
    + exists None. intros self. by destruct (discovery_running self).
  - exists None. intros self. unfold discovery_iteration.
    destruct e; by destruct (discovery_running self).
Qed.

(** X5. The listener never forgets a peer: whatever the operation, every
    address of the peer mapping is still in it afterwards, and only what a
    datagram brings changes the mapping at all. *)
Theorem peers_are_never_forgotten (a : action) self :
  dom (discovered_peers self) ⊆ dom (discovered_peers (perform a self))
  /\ ((forall ev, a <> Discovery ev) ->
      discovered_peers (perform a self) = discovered_peers self).
Proof.
  destruct a as [| | | | | | | | |ev]; cbn [perform].
  10:{ split; [|intros H; by destruct (H ev)].
       destruct (discovery_running self); [|done].
       destruct (discovery_iteration_peers ev) as [[[ip pin]|] ->];
         [|done].
       rewrite dom_insert_L. set_solver. }
  all: match goal with
       | |- dom _ ⊆ dom (discovered_peers ?s') /\ _ =>
           assert (discovered_peers s' = discovered_peers self) as E;
           [|by rewrite E]
       end.
  all: unfold select_file, select_save_folder, refresh_pin,
         broadcast_discovery, broadcast_failed, send_file, send_thread,
         start_receiving, receive_thread.
  all: by repeat case_match.
Qed.

(** X6. The listener's thread touches nothing but the peer mapping and the
    log: whatever the socket brings, and however much of it, the world
    outside, the message boxes, the PIN and the fields of the window are as
    they were. *)
Theorem listener_touches_peers_and_log_only (events : list recv_event) self :
  let self' := discovery_loop events self in
  os self' = os self /\ dialogs self' = dialogs self
  /\ pin_code self' = pin_code self /\ pin_label self' = pin_label self
  /\ local_ip self' = local_ip self
  /\ file_path_var self' = file_path_var self
  /\ save_path_var self' = save_path_var self
  /\ receiver_ip_entry self' = receiver_ip_entry self
  /\ receiver_pin_entry self' = receiver_pin_entry self
  /\ expected_pin_entry self' = expected_pin_entry self.
Proof.
  revert self. induction events as [|ev events IH]; intros self; [done|].
  cbn [discovery_loop]. destruct (discovery_running self); [|done].
  specialize (IH (discovery_iteration ev self)). cbn zeta in IH |- *.
  assert (forall s1 : App World,
             s1 = discovery_iteration ev self ->
             os s1 = os self /\ dialogs s1 = dialogs self
             /\ pin_code s1 = pin_code self /\ pin_label s1 = pin_label self
             /\ local_ip s1 = local_ip self
             /\ file_path_var s1 = file_path_var self
             /\ save_path_var s1 = save_path_var self
             /\ receiver_ip_entry s1 = receiver_ip_entry self
             /\ receiver_pin_entry s1 = receiver_pin_entry self
             /\ expected_pin_entry s1 = expected_pin_entry self) as Hone.
  { intros s1 ->. unfold discovery_iteration, handle_discovery.
    repeat case_match; simplify_eq; done. }
  destruct (Hone _ eq_refl) as (? & ? & ? & ? & ? & ? & ? & ? & ? & ?).
  destruct IH as (? & ? & ? & ? & ? & ? & ? & ? & ? & ?).
  repeat split; congruence.
Qed.

(** X7. A datagram received twice leaves the peer mapping as it is after
    the first time. *)
Theorem same_datagram_twice ev self :
  discovered_peers (discovery_iteration ev (discovery_iteration ev self))
  = discovered_peers (discovery_iteration ev self).
Proof.
  destruct (discovery_iteration_peers ev) as [[[ip pin]|] H]; rewrite !H;
    [apply insert_insert_eq|done].
Qed.

End Listener.

(** ** What the listener makes of announcements *)

Section Announcements.
Context {World : Type} `{RT : Runtime World}.
Implicit Types (self : App World).

(** X8. A running listener that receives the announcements of a list of
    hosts, in order, ends with the peer mapping that holds, for every
    address announced, the PIN of its latest announcement, and for every
    other address what it held before. *)
Theorem peers_after_announcements (l : list (str * str)) self :
  Forall (λ h, is_ipv4 h.1 = true /\ is_pin h.2 = true) l ->
  discovery_running self = true ->
  discovered_peers
    (discovery_loop ((λ h, announcement h.1 h.2) <$> l) self)
  = list_to_map (reverse l) ∪ discovered_peers self.
Proof.
  intros Hl. revert self.
  induction Hl as [|[ip pin] l [Hip Hpin] _ IH]; intros self Hrun.
  - cbn. by rewrite (left_id_L ∅ (∪)).
  - rewrite fmap_cons. cbn [discovery_loop fst snd]. rewrite Hrun.
    cbn [fst snd] in Hip, Hpin.
    change (announcement ip pin)
      with (Datagram (Utf8.byte_of <$> discovery_message ip pin)).
    rewrite discovery_iteration_broadcast by done.
    rewrite IH by done.
    cbn [record_peer log set_log_text set_discovered_peers discovered_peers].
    rewrite reverse_cons, list_to_map_app. cbn [list_to_map foldr fst snd].
    rewrite <- (assoc_L (∪)). f_equal.
    by rewrite insert_empty, <- insert_union_singleton_l.
Qed.



(** X11. What [broadcast_discovery] encodes, the listener decodes, in any
    script: for every address and PIN without a colon, of whatever
    characters, whose message has a UTF-8 encoding of at most 1024 bytes, a
    listener that receives the encoding records the address with the
    PIN. *)
Theorem announcement_round_trip (ip pin : str) (payload : bytes) self :
  0x3A ∉ ip -> 0x3A ∉ pin ->
  str_encode (discovery_message ip pin) = Ok payload ->
  (length payload <= 1024)%nat ->
  discovery_iteration (Datagram payload) self = record_peer ip pin self.
Proof.
  intros Hic Hpc Henc Hlen. unfold str_encode in Henc.
  destruct (Utf8.encode (discovery_message ip pin)) as [b|] eqn:E;
    [|done].
  injection Henc as ->.
  unfold discovery_iteration, recvfrom. rewrite take_ge by done.
  rewrite (handle_discovery_well_formed self _ ip pin []); [done|..].
  - rewrite app_nil_r. by apply decode_encode.
  - done.
  - done.
  - by left.
Qed.

End Announcements.

(** ** Blank entries *)

Lemma lstrip_nil (s : str) : Py.lstrip s = [] <-> blank s = true.
Proof.
  induction s as [|c s IH]; [done|]. cbn.
  destruct (Py.isspace c); [done|]. split; discriminate.
Qed.

Lemma lstrip_head (s : str) c t :
  Py.lstrip s = c :: t -> Py.isspace c = false.
Proof.
  induction s as [|d s IH]; [done|]. cbn.
  destruct (Py.isspace d) eqn:E; [done|]. by intros [= <- _].
Qed.

Lemma blank_rev (s : str) : blank (rev s) = blank s.
Proof.
  unfold blank. apply eq_true_iff_eq.
  rewrite !forallb_forall. split; intros H x Hx; apply H.
  - by apply (proj1 (in_rev s x)).
  - by apply (proj2 (in_rev s x)).
Qed.

Lemma strip_blank (s : str) : Py.strip s = [] <-> blank s = true.
Proof.
  unfold Py.strip. split.
  - intros H. apply (f_equal (@rev N)) in H. rewrite rev_involutive in H.
    cbn in H. apply lstrip_nil in H. rewrite blank_rev in H.
    destruct (Py.lstrip s) as [|c t] eqn:E; [by apply lstrip_nil|].
    apply lstrip_head in E. cbn in H. by rewrite E in H.
  - intros H. apply lstrip_nil in H. by rewrite H.
Qed.

(** ** More about the broadcast *)

(** X12. The address of the broadcast is the local address with what
    follows its last dot replaced by 255, whatever the address is made of;
    of an address without a dot nothing is kept, and the broadcast goes to
    [.255]. *)
Theorem broadcast_address_replaces_last_field (s : str) :
  (forall prefix last,
      s = prefix ++ lit "." ++ last -> 0x2E ∉ last ->
      broadcast_ip_of s = prefix ++ lit ".255")
  /\ (0x2E ∉ s -> broadcast_ip_of s = lit ".255").
Proof.
  split.
  - intros prefix last -> Hl. unfold broadcast_ip_of.
    change (lit "." ++ last) with (0x2E :: last).
    rewrite split_app_last by done.
    unfold Py.all_but_last. rewrite removelast_last.
    change (lit ".") with [0x2E]. by rewrite join_split.
  - intros Hs. unfold broadcast_ip_of. by rewrite split_no_sep.
Qed.

Section Broadcast.
Context {World : Type} `{RT : Runtime World}.
Implicit Types (self : App World).

(** X13. A broadcast never raises and never shows a message box: whatever
    the sockets do, it writes exactly one line to the log, of success or of
    failure, and leaves the peer mapping and the PIN as they are. *)
Theorem broadcast_logs_exactly_one_line self :
  exists line,
    log_text (broadcast_discovery self) = log_text self ++ [line ++ nl]
    /\ (line = lit "Discovery broadcast sent (IP: " ++ local_ip self
               ++ lit ", PIN: " ++ pin_code self ++ lit ")"
        \/ exists e, line = lit "Discovery broadcast failed: " ++ str_of_exn e)
    /\ dialogs (broadcast_discovery self) = dialogs self
    /\ discovered_peers (broadcast_discovery self) = discovered_peers self
    /\ pin_code (broadcast_discovery self) = pin_code self.
Proof.
  unfold broadcast_discovery, broadcast_failed.
  repeat case_match; eexists; (split; [reflexivity|]);
    (split; [first [right; by eexists | by left] | done]).
Qed.

End Broadcast.

(** ** What [send_file] and [start_receiving] check before they run
    anything *)

Section Guards.
Context {World : Type} `{RT : Runtime World}.
Implicit Types (self : App World).

Lemma strip_nil_blank (s : str) :
  bool_decide (Py.strip s = []) = blank s.
Proof.
  apply eq_true_iff_eq. rewrite bool_decide_eq_true. apply strip_blank.
Qed.

(** X14. With no file selected, a selected file that does not exist, a
    blank receiver address or a blank receiver PIN, [send_file] runs
    nothing: the world and the log are as before and one error box is
    shown. *)
Theorem send_file_refuses self :
  file_path_var self = lit "No file selected"
  \/ os_path_exists (file_path_var self) (os self) = false
  \/ blank (receiver_ip_entry self) = true
  \/ blank (receiver_pin_entry self) = true ->
  os (send_file self) = os self
  /\ log_text (send_file self) = log_text self
  /\ exists message,
      dialogs (send_file self)
      = dialogs self ++ [showerror (lit "Error") message].
Proof.
  intros H. unfold send_file. rewrite !strip_nil_blank.
  destruct (bool_decide (file_path_var self = lit "No file selected")) eqn:E1;
    [by eauto|].
  destruct (os_path_exists (file_path_var self) (os self)) eqn:E2;
    [|by eauto].
  destruct (blank (receiver_ip_entry self)) eqn:E3; [by eauto|].
  destruct (blank (receiver_pin_entry self)) eqn:E4; [by eauto|].
  apply bool_decide_eq_false in E1. cbn [orb negb].
  by destruct H as [?|[?|[?|?]]].
Qed.

(** X15. The receiver PIN is checked for being there and then dropped: two
    send operations that differ in the receiver PIN only, neither blank, do
    the same to the world, write the same log and show the same box. *)
Theorem send_ignores_receiver_pin self (pin1 pin2 : str) :
  blank pin1 = false -> blank pin2 = false ->
  let s1 := send_file (perform (TypeReceiverPin pin1) self) in
  let s2 := send_file (perform (TypeReceiverPin pin2) self) in
  os s1 = os s2 /\ log_text s1 = log_text s2 /\ dialogs s1 = dialogs s2
  /\ discovered_peers s1 = discovered_peers s2.
Proof.
  intros H1 H2 s1 s2. subst s1 s2. unfold send_file.
  rewrite !strip_nil_blank.
  cbn [perform set_entries file_path_var os receiver_ip_entry
         receiver_pin_entry].
  rewrite H1, H2.
  destruct (_ || _); [done|].
  destruct (blank (receiver_ip_entry self)); [done|].
  unfold send_thread.
  cbn [os log set_log_text set_entries log_text dialogs discovered_peers].
  destruct (subprocess_run _ (os self)) as [[result|e] w'].
  - by destruct (returncode result =? 0)%Z.
  - by destruct e.
Qed.

(** X16. With a blank expected PIN, or with a save folder that neither
    exists nor can be created, [start_receiving] never listens: no command
    is run, the log is as before and one error box is shown. *)
Theorem start_receiving_refuses self :
  blank (expected_pin_entry self) = true
  \/ (os_path_exists (save_path_var self) (os self) = false
      /\ (os_makedirs (save_path_var self) (os self)).1 <> None) ->
  (os (start_receiving self) = os self
   \/ os (start_receiving self)
      = (os_makedirs (save_path_var self) (os self)).2)
  /\ log_text (start_receiving self) = log_text self
  /\ exists message,
      dialogs (start_receiving self)
      = dialogs self ++ [showerror (lit "Error") message].
Proof.
  intros H. unfold start_receiving. rewrite strip_nil_blank.
  destruct (blank (expected_pin_entry self)) eqn:E1; [by eauto|].
  destruct H as [?|[Hex Hmk]]; [done|]. rewrite Hex.
  destruct (os_makedirs _ _) as [[e|] w']; [|done].
  cbn. eauto.
Qed.

(** X17. Whatever the command does, a transfer, sending or receiving, shows
    exactly one message box, and the box tells of a success exactly when the
    command has run to its end with the exit status 0. *)
Theorem transfer_reports_success_on_status_zero self (a b : str) :
  (exists d,
      dialogs (send_thread a b self) = dialogs self ++ [d]
      /\ (is_showinfo d = true <->
          exists result w',
            subprocess_run (send_cmd (os self) b a) (os self)
            = (Ok result, w')
            /\ returncode result = 0%Z))
  /\ (exists d,
      dialogs (receive_thread a b self) = dialogs self ++ [d]
      /\ (is_showinfo d = true <->
          exists result w',
            subprocess_run
              (receive_cmd (os self)
                 (save_path_of b (datetime_now (os self)))) (os self)
            = (Ok result, w')
            /\ returncode result = 0%Z)).
Proof.
  split.
  - unfold send_thread. cbn [os log set_log_text].
    destruct (subprocess_run _ (os self)) as [[result|e] w'].
    + destruct (Z.eqb_spec (returncode result) 0) as [E|E];
        eexists; (split; [reflexivity|]); cbn [is_showinfo].
      * split; [eauto|done].
      * split; [done|]. by intros (? & ? & [= <- _] & ?).
    + destruct e; eexists; (split; [reflexivity|]); cbn [is_showinfo];
        (split; [done|]); by intros (? & ? & [=] & _).
  - unfold receive_thread. cbn [os log set_log_text].
    destruct (subprocess_run _ (os self)) as [[result|e] w'].
    + destruct (Z.eqb_spec (returncode result) 0) as [E|E];
        eexists; (split; [reflexivity|]); cbn [is_showinfo].
      * split; [eauto|done].
      * split; [done|]. by intros (? & ? & [= <- _] & ?).
    + destruct e; eexists; (split; [reflexivity|]); cbn [is_showinfo];
        (split; [done|]); by intros (? & ? & [=] & _).
Qed.

(** X18. An application that has just started can neither send nor
    receive: no file is selected and the expected PIN is blank, so either
    button brings its error box and runs nothing; no peer is known and the
    log has its four opening lines, with the address and the PIN. *)
Theorem fresh_application_sends_and_receives_nothing (ip home : str)
  (w : World) :
  let app := init ip home w in
  dialogs (send_file app)
  = [showerror (lit "Error") (lit "Please select a valid file to send")]
  /\ os (send_file app) = os app
  /\ dialogs (start_receiving app)
     = [showerror (lit "Error") (lit "Please enter expected PIN code")]
  /\ os (start_receiving app) = os app
  /\ discovered_peers app = ∅
  /\ log_text app
     = [lit "Application started" ++ nl; lit "Local IP: " ++ ip ++ nl;
        lit "PIN Code: " ++ pin_code app ++ nl;
        lit "Ready to send or receive files" ++ nl].
Proof.
  intros app. subst app. unfold init.
  destruct (generate_pin w) as [pin w']. done.
Qed.

End Guards.

(** ** The file name in the log *)

Section Selection.
Context {World : Type} `{RT : Runtime World}.
Implicit Types (self : App World).

(** X19. Choosing a file stores its full path and writes to the log the
    name only, that is what follows the last slash of the path: the whole
    path when it has no slash, the empty name when it ends in a slash; a
    cancelled dialog changes nothing. *)
Theorem select_file_logs_the_name_only (filename : str) self :
  select_file [] self = self
  /\ (filename <> [] ->
      file_path_var (select_file filename self) = filename
      /\ (0x2F ∉ filename ->
          log_text (select_file filename self)
          = log_text self ++ [lit "File selected: " ++ filename ++ nl])
      /\ (forall dir name,
             filename = dir ++ lit "/" ++ name -> 0x2F ∉ name ->
             log_text (select_file filename self)
             = log_text self ++ [lit "File selected: " ++ name ++ nl])).
Proof.
  split; [done|]. intros Hne. unfold select_file.
  rewrite bool_decide_eq_false_2 by done.
  unfold log. cbn [log_text set_log_text set_vars file_path_var].
  split; [done|]. split.
  - intros Hno. unfold Py.basename. rewrite split_no_sep by done.
    cbn [List.last]. by rewrite <- app_assoc.
  - intros dir name -> Hno. unfold Py.basename.
    change (lit "/" ++ name) with (0x2F :: name).
    rewrite split_app_last by done. rewrite last_last.
    by rewrite <- app_assoc.
Qed.

End Selection.

(** ** The local address *)

Lemma isspace_printable c : 0x20 < c < 0x80 -> Py.isspace c = false.
Proof.
  intros Hc. destruct (Py.isspace c) eqn:E; [|done]. exfalso.
  revert E. unfold Py.isspace.
  rewrite !orb_true_iff, !andb_true_iff, !N.leb_le, !N.eqb_eq. lia.
Qed.

Lemma lstrip_id (s : str) :
  Forall (λ c, Py.isspace c = false) s -> Py.lstrip s = s.
Proof. destruct 1 as [|c s Hc _]; [done|]. cbn. by rewrite Hc. Qed.

(** A word without white space, followed by a line feed, is stripped to the
    word. *)
Lemma strip_line (s : str) :
  Forall (λ c, Py.isspace c = false) s -> Py.strip (s ++ nl) = s.
Proof.
  intros Hs. destruct s as [|c s]; [done|]. unfold Py.strip.
  assert (Py.lstrip ((c :: s) ++ nl) = (c :: s) ++ nl) as ->.
  { apply Forall_cons in Hs as [Hc _]. cbn. by rewrite Hc. }
  unfold nl. rewrite rev_unit. cbn [Py.lstrip].
  change (Py.isspace 0x0A) with true. cbn match.
  rewrite lstrip_id; [apply rev_involutive|].
  rewrite rev_alt. fold (reverse (c :: s)). by apply Forall_reverse.
Qed.

Lemma is_ipv4_no_space ip :
  is_ipv4 ip = true -> Forall (λ c, Py.isspace c = false) ip.
Proof.
  intros (o1 & o2 & o3 & o4 & _ & -> & Ho)%is_ipv4_inv.
  repeat match goal with
         | H : Forall _ (_ :: _) |- _ =>
             apply Forall_cons in H as [(? & ? & ?)%is_octet_inv H]
         end.
  assert (forall o, forallb is_digit o = true ->
            Forall (λ c, Py.isspace c = false) o) as Hd.
  { intros o Hall. apply Forall_forall. intros c Hc.
    rewrite forallb_forall in Hall.
    apply list_elem_of_In, Hall, is_digit_spec in Hc.
    apply isspace_printable. lia. }
  repeat apply Forall_app_2; try by apply Hd.
  all: by repeat constructor.
Qed.

(** X20. The local address is a dotted address of four numbers whenever
    the outside answers with one: the probing socket, the resolver, and
    [ipconfig], whose line of output is stripped of its line feed.  Where
    the probe and the resolver both raise, and where, on a Mac whose
    resolver knows a loopback address only, the run of [ipconfig] raises,
    it is 127.0.0.1. *)
Theorem get_local_ip_is_dotted (probe lookup : result str) (system : str)
  (ipconfig : result CompletedProcess) :
  (forall ip, probe = Ok ip -> is_ipv4 ip = true) ->
  (forall ip, lookup = Ok ip -> is_ipv4 ip = true) ->
  (forall r, ipconfig = Ok r -> returncode r = 0%Z ->
     exists ip, is_ipv4 ip = true /\ stdout r = ip ++ nl) ->
  is_ipv4 (get_local_ip probe lookup system ipconfig) = true
  /\ (forall e1 e2,
        get_local_ip (Raise e1) (Raise e2) system ipconfig
        = lit "127.0.0.1")
  /\ (forall e1 e3 ip,
        Py.startswith (lit "127.") ip = true ->
        get_local_ip (Raise e1) (Ok ip) (lit "Darwin") (Raise e3)
        = lit "127.0.0.1").
Proof.
  intros Hp Hl Hc. split; [|split].
  - unfold get_local_ip.
    destruct probe as [ip|e]; [by apply Hp|].
    destruct lookup as [ip|e']; [|done].
    specialize (Hl ip eq_refl).
    destruct (Py.startswith _ ip); [|done].
    destruct (bool_decide _); [|done].
    destruct ipconfig as [r|e'']; [|done].
    destruct (Z.eqb_spec (returncode r) 0) as [E|E]; [|done].
    destruct (Hc r eq_refl E) as (ip' & Hip & ->).
    by rewrite strip_line by by apply is_ipv4_no_space.
  - done.
  - intros e1 e3 ip Hloop. unfold get_local_ip. by rewrite Hloop.
Qed.

(** ** Every PIN can be drawn *)

Lemma draw_picks_digit c :
  is_digit c = true ->
  Py.index Py.digits
    (double_of_N
       ((draw_of_digit c mod 2 ^ 53)
        * double_of_N (N.of_nat (length Py.digits))) / 2 ^ 53)
  = c.
Proof.
  intros H%is_digit_spec.
  assert (c = 48 \/ c = 49 \/ c = 50 \/ c = 51 \/ c = 52 \/ c = 53
          \/ c = 54 \/ c = 55 \/ c = 56 \/ c = 57) as Hc by lia.
  repeat (destruct Hc as [->|Hc]; [by vm_compute|]). subst. by vm_compute.
Qed.

Lemma random_choices_on_tape (cs : str) (w : Posix.world) rest :
  forallb is_digit cs = true ->
  Posix.entropy w = (draw_of_digit <$> cs) ++ rest ->
  Py.join [] (random_choices Py.digits (length cs) w).1 = cs.
Proof.
  revert w. induction cs as [|c cs IH]; intros w Hd Hw; [done|].
  cbn in Hd. apply andb_true_iff in Hd as [Hc Hd].
  cbn [length random_choices]. unfold random_index.
  cbn [random_u53 Posix.runtime]. unfold Posix.next_u53. rewrite Hw.
  cbn [fmap list_fmap app hd tl].
  specialize (IH (Posix.set_entropy ((draw_of_digit <$> cs) ++ rest) w) Hd
                eq_refl).
  destruct (random_choices Py.digits (length cs) _) as [more w2].
  cbn [fst] in *. rewrite join_empty_cons, IH, draw_picks_digit by done.
  done.
Qed.

(** X21. Every string of six digits is a PIN that [generate_pin] can
    return, those with leading zeros included: there is a tape of six
    random numbers on which the floating-point products of
    [random.choices] pick the six digits. *)
Theorem every_pin_can_be_drawn (pin : str) :
  is_pin pin = true ->
  exists tape, forall w : Posix.world,
    Posix.entropy w = tape -> (generate_pin w).1 = pin.
Proof.
  intros [Hlen Hd]%is_pin_inv. exists (draw_of_digit <$> pin).
  intros w Hw. unfold generate_pin.
  pose proof (random_choices_on_tape pin w [] Hd) as H.
  rewrite app_nil_r, Hlen in H. specialize (H Hw).
  by destruct (random_choices Py.digits 6 w).
Qed.

(** ** The further properties, on the two hosts *)

Section MoreWitnesses.
Import Scenario.

(** X2 on the sender's host, after the socket has failed once. *)
Lemma discovery_never_stops_witness :
  let after := perform (Discovery (RecvRaises (OSError (lit "down")))) alice in
  reachable after /\ discovery_running after = true.
Proof.
  intros after.
  assert (reachable after) as Hr by apply reach_step, reach_init.
  exact (conj Hr (discovery_never_stops after Hr)).
Defined.

(** X3 on the receiver's host, after two clicks on [New PIN]. *)
Lemma pin_label_shows_pin_code_witness :
  let after := perform ClickNewPin (perform ClickNewPin bob) in
  reachable after /\ pin_label after = pin_code after.
Proof.
  intros after.
  assert (reachable after) as Hr by apply reach_step, reach_step, reach_init.
  exact (conj Hr (pin_label_shows_pin_code after Hr)).
Defined.

(** X8: three announcements of two hosts reach the receiver. *)
Lemma peers_after_announcements_witness :
  let heard :=
    [(lit "192.168.1.7", lit "111111"); (lit "192.168.1.9", lit "222222");
     (lit "192.168.1.7", lit "333333")] in
  (Forall (λ h, is_ipv4 h.1 = true /\ is_pin h.2 = true) heard
   /\ discovery_running bob = true)
  /\ discovered_peers
       (discovery_loop ((λ h, announcement h.1 h.2) <$> heard) bob)
     = list_to_map (reverse heard) ∪ discovered_peers bob.
Proof.
  intros heard.
  assert (Forall (λ h, is_ipv4 h.1 = true /\ is_pin h.2 = true) heard) as H1.
  { unfold heard.
    repeat (apply Forall_cons_2; [apply conj; by_computation|]).
    apply Forall_nil_2. }
  assert (discovery_running bob = true) as H2 by by_computation.
  exact (conj (conj H1 H2) (peers_after_announcements heard bob H1 H2)).
Defined.



(** X11: a PIN in Arabic-Indic digits. *)
Lemma announcement_round_trip_witness :
  let ip := lit "192.168.1.7" in
  let pin : str := [0x661; 0x662; 0x663] in
  let payload :=
    text "DISCOVERY:192.168.1.7:" ++ [xd9; xa1; xd9; xa2; xd9; xa3] in
  ((0x3A ∉ ip) /\ (0x3A ∉ pin)
   /\ str_encode (discovery_message ip pin) = Ok payload
   /\ (length payload <= 1024)%nat)
  /\ discovery_iteration (Datagram payload) bob = record_peer ip pin bob.
Proof.
  intros ip pin payload.
  assert (0x3A ∉ ip) as H1 by by_computation.
  assert (0x3A ∉ pin) as H2 by by_computation.
  assert (str_encode (discovery_message ip pin) = Ok payload) as H3
    by by_computation.
  assert (length payload <= 1024)%nat as H4 by (cbn; lia).
  exact (conj (conj H1 (conj H2 (conj H3 H4)))
           (announcement_round_trip ip pin payload bob H1 H2 H3 H4)).
Defined.

(** X14: the sender has typed a PIN of spaces. *)
Lemma send_file_refuses_witness :
  let before := alice_sending (lit "/home/alice/report.pdf") (lit "   ") in
  blank (receiver_pin_entry before) = true
  /\ os (send_file before) = os before
  /\ log_text (send_file before) = log_text before.
Proof.
  intros before.
  assert (blank (receiver_pin_entry before) = true) as H by by_computation.
  destruct (send_file_refuses before (or_intror (or_intror (or_intror H))))
    as (Ho & Hl & _).
  exact (conj H (conj Ho Hl)).
Defined.

(** X15: the sender, with one receiver PIN or another. *)
Lemma send_ignores_receiver_pin_witness :
  let before := alice_sending (lit "/home/alice/report.pdf") [] in
  (blank (lit "111111") = false /\ blank (lit "222222") = false)
  /\ os (send_file (perform (TypeReceiverPin (lit "111111")) before))
     = os (send_file (perform (TypeReceiverPin (lit "222222")) before)).
Proof.
  intros before.
  assert (blank (lit "111111") = false) as H1 by by_computation.
  assert (blank (lit "222222") = false) as H2 by by_computation.
  exact (conj (conj H1 H2)
           (proj1 (send_ignores_receiver_pin before _ _ H1 H2))).
Defined.

(** X16: the receiver has typed a tabulation for the expected PIN. *)
Lemma start_receiving_refuses_witness :
  let before := bob_listening [0x09] in
  blank (expected_pin_entry before) = true
  /\ log_text (start_receiving before) = log_text before.
Proof.
  intros before.
  assert (blank (expected_pin_entry before) = true) as H by by_computation.
  exact (conj H (proj1 (proj2 (start_receiving_refuses before (or_introl H))))).
Defined.

(** X20: a Mac without a route, whose resolver knows the loopback only. *)
Lemma get_local_ip_is_dotted_witness :
  let probe : result str := Raise (OSError (lit "Network is unreachable")) in
  let lookup := Ok (lit "127.0.0.1") in
  let ipconfig :=
    Ok {| returncode := 0; stdout := lit "192.168.1.8" ++ nl; stderr := [] |} in
  get_local_ip probe lookup (lit "Darwin") ipconfig = lit "192.168.1.8"
  /\ is_ipv4 (get_local_ip probe lookup (lit "Darwin") ipconfig) = true.
Proof.
  intros probe lookup ipconfig. split; [by_computation|].
  apply (get_local_ip_is_dotted probe lookup (lit "Darwin") ipconfig).
  - intros ip [=].
  - intros ip [= <-]. by_computation.
  - intros r [= <-] _. exists (lit "192.168.1.8"). split; by_computation.
Defined.

(** X21: the PIN of six zeros. *)
Lemma every_pin_can_be_drawn_witness :
  is_pin (lit "000000") = true
  /\ exists tape, forall w : Posix.world,
      Posix.entropy w = tape -> (generate_pin w).1 = lit "000000".
Proof.
  assert (is_pin (lit "000000") = true) as H by by_computation.
  exact (conj H (every_pin_can_be_drawn (lit "000000") H)).
Defined.

(** X23: two receive operations into [/tmp/out] within the same second. *)
Lemma save_path_of_inj_witness :
  (valid_datetime noon /\ valid_datetime (Posix.clock (os bob))
   /\ save_path_of (lit "/tmp/out") noon
      = save_path_of (lit "/tmp/out") (Posix.clock (os bob)))
  /\ noon = Posix.clock (os bob).
Proof.
  assert (valid_datetime noon) as H1 by (unfold valid_datetime; cbn; lia).
  assert (valid_datetime (Posix.clock (os bob))) as H2
    by (unfold valid_datetime; cbn; lia).
  assert (save_path_of (lit "/tmp/out") noon
          = save_path_of (lit "/tmp/out") (Posix.clock (os bob))) as H3
    by by_computation.
  exact (conj (conj H1 (conj H2 H3)) (save_path_of_inj _ _ _ H1 H2 H3)).
Defined.

(** X24: the sender's report, sent to the receiver and saved there. *)
Lemma transfer_round_trip_witness :
  let sender := alice_sending (lit "/home/alice/report.pdf") (lit "482913") in
  let receiver := bob_listening (lit "482913") in
  (Posix.canonical (file_path_var sender) = true
   /\ Posix.files (os sender) !! file_path_var sender
      = Some (text "%PDF-1.7")
   /\ (0x27 ∉ file_path_var sender)
   /\ Posix.host_word (Py.strip (receiver_ip_entry sender)) = true
   /\ (Py.strip (receiver_ip_entry sender) ∈ Posix.accepting (os sender))
   /\ Posix.stalling (os sender) !! Py.strip (receiver_ip_entry sender)
      = None
   /\ Py.strip (receiver_pin_entry sender) <> []
   /\ Py.strip (expected_pin_entry receiver) <> []
   /\ Posix.canonical (save_path_var receiver) = true
   /\ (length (save_path_var receiver) <= 993)%nat
   /\ (0x27 ∉ save_path_var receiver)
   /\ valid_datetime (Posix.clock (os receiver))
   /\ Posix.can_write
        (save_path_of (save_path_var receiver) (Posix.clock (os receiver)))
        (os receiver) = true)
  /\ Posix.files
       (os (start_receiving
              (connect (last_connection (send_file sender)) receiver)))
     !! save_path_of (save_path_var receiver) (Posix.clock (os receiver))
     = Some (text "%PDF-1.7").
Proof.
  intros sender receiver.
  assert (Posix.canonical (file_path_var sender) = true) as H1
    by by_computation.
  assert (Posix.files (os sender) !! file_path_var sender
          = Some (text "%PDF-1.7")) as H2 by by_computation.
  assert (0x27 ∉ file_path_var sender) as H3 by by_computation.
  assert (Posix.host_word (Py.strip (receiver_ip_entry sender)) = true)
    as H4 by by_computation.
  assert (Py.strip (receiver_ip_entry sender) ∈ Posix.accepting (os sender))
    as H5 by by_computation.
  assert (Posix.stalling (os sender) !! Py.strip (receiver_ip_entry sender)
          = None) as H6 by by_computation.
  assert (Py.strip (receiver_pin_entry sender) <> []) as H7
    by by_computation.
  assert (Py.strip (expected_pin_entry receiver) <> []) as H8
    by by_computation.
  assert (Posix.canonical (save_path_var receiver) = true) as H9
    by by_computation.
  assert (length (save_path_var receiver) <= 993)%nat as H10 by (cbn; lia).
  assert (0x27 ∉ save_path_var receiver) as H11 by by_computation.
  assert (valid_datetime (Posix.clock (os receiver))) as Ht
    by (unfold valid_datetime; cbn; lia).
  assert (Posix.can_write
            (save_path_of (save_path_var receiver)
               (Posix.clock (os receiver)))
            (os receiver) = true) as H12 by by_computation.
  refine (conj (conj H1 (conj H2 (conj H3 (conj H4 (conj H5 (conj H6
            (conj H7 (conj H8 (conj H9 (conj H10 (conj H11
            (conj Ht H12))))))))))))
            _).
  exact (proj1 (transfer_round_trip sender receiver (text "%PDF-1.7")
                  H1 H2 H3 H4 H5 H6 H7 H8 H9 H10 H11 Ht H12)).
Defined.

End MoreWitnesses.
